(** * The default-queue-type reproduction and repair scripts

    A shallow embedding of [src/workaround.py] (the fleet-wide repair scan)
    and [src/repro.py] (the reproduction driver), with the properties of
    their control flow.

    Both scripts are sequential orchestration: they start administrative
    commands as subprocesses, open one client connection, print, and branch
    on return codes and on two string tests.  The embedding keeps that
    shape.  A script is a function from the state of the outside world to
    an outcome: the value it returns or the exception it raises, the world
    it leaves, and the chronological list of what it did (lines printed,
    processes started, queue declarations attempted). *)

From Stdlib Require Import ZArith Ascii String List Bool Lia.
From stdpp Require Import base option list strings pretty gmap fin_maps.
Import ListNotations.

Local Open Scope string_scope.
Local Open Scope Z_scope.
Local Open Scope list_scope.
Set Warnings "-register-all".

(** ** Python values and exceptions *)

(** A command handed to [subprocess.run]: an argument vector, or one string
    for the shell. *)
Inductive command : Type :=
| Argv (args : list string)
| ShellLine (line : string).

(** The exceptions the two scripts raise or let through. *)
Inductive exn : Type :=
| SystemExit (code : Z)
| CalledProcessError (returncode : Z) (cmd : command)
| OSError
| UnicodeDecodeError
| JSONDecodeError
| KeyError (key : string)
| TypeError
| AttributeError.

(** How a call of [subprocess.run] ends when the call itself raises:
    [OSError] (the program cannot be started), or, with [text=True],
    [UnicodeDecodeError] (what the process wrote cannot be decoded). *)
Inductive run_error : Type :=
| CannotStart
| CannotDecode.

Definition raised (e : run_error) : exn :=
  match e with
  | CannotStart => OSError
  | CannotDecode => UnicodeDecodeError
  end.

(** How a call of [subprocess.run] ends, before any test of the return
    code: it returns, or the call itself raises. *)
Inductive ran (A : Type) : Type :=
| Returned (a : A)
| Failed (e : run_error).
Arguments Returned {A} a.
Arguments Failed {A} e.

Inductive result (A : Type) : Type :=
| Ok (a : A)
| Raise (e : exn).
Arguments Ok {A} a.
Arguments Raise {A} e.

(** The exit status of the interpreter for the outcome of a script: 0 when
    the script runs off its end, the argument of [sys.exit], and 1 for any
    other exception that reaches the top level. *)
Definition exit_status {A : Type} (r : result A) : Z :=
  match r with
  | Ok _ => 0
  | Raise (SystemExit code) => code
  | Raise _ => 1
  end.

(** What [json.loads] returns. Numbers are kept by their literal: the
    scripts never compute with them. A dict is the list of its items;
    where a key is bound more than once the last binding is the one the
    dict holds. *)
Inductive value : Type :=
| VNone
| VBool (b : bool)
| VNum (literal : string)
| VStr (s : string)
| VList (items : list value)
| VDict (items : list (string * value)).

(** ** Strings *)

Definition chr (n : nat) : string := String (ascii_of_nat n) EmptyString.

Definition ESC : string := chr 27.
Definition NL : string := chr 10.
Definition DQ : string := chr 34.

(** [sep.join(parts)] *)
Fixpoint join (sep : string) (parts : list string) : string :=
  match parts with
  | [] => ""
  | [p] => p
  | p :: rest => p +:+ sep +:+ join sep rest
  end.

(** A Python [str] is held as the bytes of its UTF-8 encoding, one
    [ascii] for each byte, so the text outside the first 128 code points
    is kept as it is.

    [str.split()] and [str.strip()] treat as white space the code points
    for which [str.isspace()] holds: U+0009 to U+000D, U+001C to U+0020,
    U+0085, U+00A0, U+1680, U+2000 to U+200A, U+2028, U+2029, U+202F,
    U+205F and U+3000. The first group are single bytes: *)
Definition is_space (c : ascii) : bool :=
  let n := nat_of_ascii c in
  ((9 <=? n)%nat && (n <=? 13)%nat) || ((28 <=? n)%nat && (n <=? 32)%nat).

(** U+0085 and U+00A0, two bytes each: C2 85 and C2 A0. *)
Definition is_space2 (a b : ascii) : bool :=
  (nat_of_ascii a =? 194)%nat
  && ((nat_of_ascii b =? 133)%nat || (nat_of_ascii b =? 160)%nat).

(** The others, three bytes each: E1 9A 80 (U+1680), E2 80 80 to E2 80 8A
    (U+2000 to U+200A), E2 80 A8, E2 80 A9, E2 80 AF (U+2028, U+2029,
    U+202F), E2 81 9F (U+205F) and E3 80 80 (U+3000). *)
Definition is_space3 (a b c : ascii) : bool :=
  let x := nat_of_ascii a in
  let y := nat_of_ascii b in
  let z := nat_of_ascii c in
  ((x =? 225)%nat && (y =? 154)%nat && (z =? 128)%nat)
  || ((x =? 226)%nat && (y =? 128)%nat
      && (((128 <=? z)%nat && (z <=? 138)%nat)
          || (z =? 168)%nat || (z =? 169)%nat || (z =? 175)%nat))
  || ((x =? 226)%nat && (y =? 129)%nat && (z =? 159)%nat)
  || ((x =? 227)%nat && (y =? 128)%nat && (z =? 128)%nat).

(** The number of bytes of the white space character [s] starts with, 0
    when it starts with none. *)
Definition space_width (s : string) : nat :=
  match s with
  | String a (String b (String c _)) =>
      if is_space a then 1
      else if is_space2 a b then 2
      else if is_space3 a b c then 3 else 0
  | String a (String b EmptyString) =>
      if is_space a then 1 else if is_space2 a b then 2 else 0
  | String a EmptyString => if is_space a then 1 else 0
  | EmptyString => 0
  end%nat.

(** [s.split()] : the maximal runs of characters that are not white space.
    [cur] is the run being read, in reverse; [skip] is the number of
    bytes still to pass of the white space character being read. *)
Fixpoint split_go (s : string) (cur : list ascii) (skip : nat) : list string :=
  let flush rest :=
    match cur with
    | [] => rest
    | _ => string_of_list_ascii (rev cur) :: rest
    end in
  match s with
  | EmptyString => flush []
  | String c s' =>
      match skip with
      | S k => split_go s' cur k
      | O =>
          match space_width (String c s') with
          | S k => flush (split_go s' [] k)
          | O => split_go s' (c :: cur) 0
          end
      end
  end.

Definition split (s : string) : list string := split_go s [] 0.

(** [bool(s.strip())] : some character of [s] is not white space. *)
Fixpoint strip_go (s : string) (skip : nat) : bool :=
  match s with
  | EmptyString => false
  | String c s' =>
      match skip with
      | S k => strip_go s' k
      | O =>
          match space_width (String c s') with
          | S k => strip_go s' k
          | O => true
          end
      end
  end.

Definition strip_nonempty (s : string) : bool := strip_go s 0.

(** [needle in hay] for two strings. *)
Fixpoint contains (needle hay : string) : bool :=
  String.prefix needle hay ||
  match hay with
  | EmptyString => false
  | String _ hay' => contains needle hay'
  end.

(** A word, as [split] gives them: not empty, and no white space
    character starts anywhere in it, whatever follows the word (the
    space that follows it in a joined text included). *)
Definition word (w : string) : Prop :=
  w <> ""
  /\ forall pre post rest,
       w = pre +:+ post -> post <> "" ->
       space_width (post +:+ String " " rest) = 0%nat.

(** The run [split_go] is reading shows no white space, whatever part of
    it is taken together with the text still to be read. *)
Definition run_free (cur : list ascii) (s : string) : Prop :=
  forall pre post,
    string_of_list_ascii (rev cur) = pre +:+ post -> post <> "" ->
    space_width (post +:+ s) = 0%nat.

(** ** Outcomes

    [W] is the state of the outside world (the broker, the file system),
    [E] the kind of event a script leaves in its trace. *)

Section Script.
Context {W E : Type}.

Record outcome (A : Type) : Type := Outcome {
  res : result A;
  world : W;
  trace : list E
}.
Arguments Outcome {A} _ _ _.
Arguments res {A} _.
Arguments world {A} _.
Arguments trace {A} _.

Definition script (A : Type) : Type := W -> outcome A.

Definition ret {A : Type} (a : A) : script A :=
  fun w => Outcome (Ok a) w [].

Definition raise {A : Type} (e : exn) : script A :=
  fun w => Outcome (Raise e) w [].

Definition bind {A B : Type} (m : script A) (k : A -> script B) : script B :=
  fun w =>
    let o := m w in
    match res o with
    | Ok a =>
        let o' := k a (world o) in
        Outcome (res o') (world o') (trace o ++ trace o')
    | Raise e => Outcome (Raise e) (world o) (trace o)
    end.

Definition emit (e : E) : script unit :=
  fun w => Outcome (Ok tt) w [e].

(** [sys.exit(code)] *)
Definition sys_exit {A : Type} (code : Z) : script A :=
  raise (SystemExit code).

(** The outcome [o], reached after the events [t]. *)
Definition after {A : Type} (t : list E) (o : outcome A) : outcome A :=
  Outcome (res o) (world o) (t ++ trace o).
End Script.

Arguments outcome : clear implicits.
Arguments script : clear implicits.
Arguments Outcome {W E A} _ _ _.
Arguments res {W E A} _.
Arguments world {W E A} _.
Arguments trace {W E A} _.

Declare Scope script_scope.
Delimit Scope script_scope with script.
Notation "x <- m ;; k" := (bind m (fun x => k))
  (at level 100, m at next level, right associativity) : script_scope.
Notation "m ;; k" := (bind m (fun _ => k))
  (at level 100, right associativity) : script_scope.
Local Open Scope script_scope.

(** * The repair scan, [src/workaround.py] *)

Module Workaround.

(** ANSI colours *)
Definition YELLOW : string := ESC +:+ "[0;33m".
Definition GREEN : string := ESC +:+ "[0;32m".
Definition RED : string := ESC +:+ "[0;31m".
Definition NC : string := ESC +:+ "[0m".

(** What [subprocess.run] returns. The script reads the captured standard
    output only through [json.loads(result.stdout)], so the record holds
    the document that text decodes to, and [None] for a text the decoder
    rejects. *)
Record completed : Type := Completed {
  returncode : Z;
  stdout : option value;
  stderr : string
}.

(** The operating system: [spawn cmd w] is the call
    [subprocess.run(cmd, ...)] made in world [w]. It gives the finished
    process, or the way the call itself fails, and the world it leaves. *)
Class System (W : Type) : Type := {
  spawn : list string -> W -> ran completed * W
}.

(** A printed line is the sequence of the pieces of its f-string: literal
    text, and values formatted in place. *)
Inductive piece : Type :=
| Lit (s : string)
| Fmt (v : value).

Inductive event : Type :=
| Print (line : list piece)
| Exec (cmd : list string) (status : ran Z).

Section Scan.
Context {W : Type} `{System W}.

Abbreviation script := (script W event).

Definition print (line : list piece) : script unit := emit (Print line).

(** [subprocess.run(cmd, ...)], without [check] *)
Definition subprocess_run (cmd : list string) : script completed :=
  fun w =>
    match spawn cmd w with
    | (Returned r, w') => Outcome (Ok r) w' [Exec cmd (Returned (returncode r))]
    | (Failed e, w') => Outcome (Raise (raised e)) w' [Exec cmd (Failed e)]
    end.

(** [subprocess.run(cmd, check=True)] *)
Definition subprocess_run_checked (cmd : list string) : script completed :=
  r <- subprocess_run cmd;;
  if negb (returncode r =? 0)
  then raise (CalledProcessError (returncode r) (Argv cmd))
  else ret r.

(** [json.loads(result.stdout)] *)
Definition json_loads (r : completed) : script value :=
  match stdout r with
  | Some doc => ret doc
  | None => raise JSONDecodeError
  end.

(** The binding of [key] a dict holds: the last one in its items. *)
Fixpoint lookup_item (key : string) (items : list (string * value))
  : option value :=
  match items with
  | [] => None
  | (k, v) :: rest =>
      match lookup_item key rest with
      | Some v' => Some v'
      | None => if String.eqb k key then Some v else None
      end
  end.

(** The keys of a dict, each once, in the order of first insertion. *)
Fixpoint dict_keys (items : list (string * value)) (seen : list string)
  : list string :=
  match items with
  | [] => []
  | (k, _) :: rest =>
      if existsb (String.eqb k) seen then dict_keys rest seen
      else k :: dict_keys rest (k :: seen)
  end.

Fixpoint chars (s : string) : list string :=
  match s with
  | EmptyString => []
  | String c s' => String c EmptyString :: chars s'
  end.

(** [iter(v)] : the values a [for] loop over [v] visits. *)
Definition iterate (v : value) : script (list value) :=
  match v with
  | VList items => ret items
  | VDict items => ret (map VStr (dict_keys items []))
  | VStr s => ret (map VStr (chars s))
  | VNone | VBool _ | VNum _ => raise TypeError
  end.

(** [v[key]] for a string [key] *)
Definition getitem (v : value) (key : string) : script value :=
  match v with
  | VDict items =>
      match lookup_item key items with
      | Some x => ret x
      | None => raise (KeyError key)
      end
  | _ => raise TypeError
  end.

(** [v.get(key, default)] *)
Definition get (v : value) (key : string) (default : value) : script value :=
  match v with
  | VDict items =>
      match lookup_item key items with
      | Some x => ret x
      | None => ret default
      end
  | _ => raise AttributeError
  end.

(** [v == s] for a string literal [s] *)
Definition eq_str (v : value) (s : string) : bool :=
  match v with
  | VStr t => String.eqb t s
  | _ => false
  end.

(** The words of a command list that holds values: [' '.join] raises
    [TypeError] unless every one is a string. *)
Fixpoint words (vs : list value) : script (list string) :=
  match vs with
  | [] => ret []
  | VStr s :: rest => ws <- words rest;; ret (s :: ws)
  | _ :: _ => raise TypeError
  end.

Definition list_cmd : list string :=
  ["rabbitmqctl"; "list_vhosts"; "name"; "default_queue_type";
   "--formatter"; "json"].

Definition fix_cmd (name : value) : list value :=
  [VStr "rabbitmqctl"; VStr "update_vhost_metadata"; name;
   VStr "--default-queue-type"; VStr "classic"].

(** The body of the [for] loop (lines 37 to 47), which returns the new
    [fixed_count]. *)
Definition visit (vhost : value) (fixed_count : nat) : script nat :=
  name <- getitem vhost "name";;
  dqt <- get vhost "default_queue_type" (VStr "not_set");;
  if eq_str dqt "undefined" then
    print [Lit RED; Lit "Found problematic metadata: vhost '"; Fmt name;
           Lit "' has default_queue_type = '"; Fmt dqt; Lit "'"; Lit NC];;
    argv <- words (fix_cmd name);;
    print [Lit "  "; Lit YELLOW; Lit "$ "; Lit (join " " argv); Lit NC];;
    subprocess_run_checked argv;;
    ret (fixed_count + 1)%nat
  else
    print [Lit GREEN; Lit "ok: vhost '"; Fmt name;
           Lit "' has default_queue_type = '"; Fmt dqt; Lit "'"; Lit NC];;
    ret fixed_count.

(** [for vhost in vhosts: ...] (lines 36 to 47) *)
Fixpoint for_each (vhosts : list value) (fixed_count : nat) : script nat :=
  match vhosts with
  | [] => ret fixed_count
  | vhost :: rest =>
      n <- visit vhost fixed_count;;
      for_each rest n
  end.

(** The report after the loop (lines 49 to 53). *)
Definition report (fixed_count : nat) : script unit :=
  print [];;
  if (0 <? fixed_count)%nat
  then print [Lit "Fixed "; Lit (pretty fixed_count); Lit " vhost(s)."]
  else print [Lit "All vhosts are OK."].

Definition main : script unit :=
  print [Lit "Checking vhosts for default_queue_type set to literal 'undefined'..."];;
  print [];;
  print [Lit "  "; Lit YELLOW; Lit "$ "; Lit (join " " list_cmd); Lit NC];;
  result <- subprocess_run list_cmd;;
  (if negb (returncode result =? 0)
   then print [Lit RED; Lit "ERROR: "; Lit (stderr result); Lit NC];;
        sys_exit 1
   else ret tt);;
  vhosts <- json_loads result;;
  print [];;
  entries <- iterate vhosts;;
  fixed_count <- for_each entries 0%nat;;
  report fixed_count.
End Scan.

(** *** What a completed scan looks like

    The pure reading of an entry, used to state what the loop does. *)

Definition DQT : string := "default_queue_type".

Definition name_of (vhost : value) : value :=
  match vhost with
  | VDict items => default VNone (lookup_item "name" items)
  | _ => VNone
  end.

Definition dqt_of (vhost : value) : value :=
  match vhost with
  | VDict items => default (VStr "not_set") (lookup_item DQT items)
  | _ => VStr "not_set"
  end.

(** The trigger condition of line 40. *)
Definition is_undefined (vhost : value) : bool :=
  eq_str (dqt_of vhost) "undefined".

Definition text_of (v : value) : string :=
  match v with
  | VStr s => s
  | _ => ""
  end.

(** The corrective call for the virtual host [name]. *)
Definition update_cmd (name : string) : list string :=
  ["rabbitmqctl"; "update_vhost_metadata"; name;
   "--default-queue-type"; "classic"].

Definition found_line (vhost : value) : list piece :=
  [Lit RED; Lit "Found problematic metadata: vhost '"; Fmt (name_of vhost);
   Lit "' has default_queue_type = '"; Fmt (dqt_of vhost); Lit "'"; Lit NC].

Definition ok_line (vhost : value) : list piece :=
  [Lit GREEN; Lit "ok: vhost '"; Fmt (name_of vhost);
   Lit "' has default_queue_type = '"; Fmt (dqt_of vhost); Lit "'"; Lit NC].

Definition cmd_line (cmd : list string) : list piece :=
  [Lit "  "; Lit YELLOW; Lit "$ "; Lit (join " " cmd); Lit NC].

(** The events of one iteration that runs to its end. *)
Definition entry_events (vhost : value) : list event :=
  if is_undefined vhost then
    let cmd := update_cmd (text_of (name_of vhost)) in
    [Print (found_line vhost); Print (cmd_line cmd); Exec cmd (Returned 0)]
  else [Print (ok_line vhost)].

Definition header_events : list event :=
  [Print [Lit "Checking vhosts for default_queue_type set to literal 'undefined'..."];
   Print [];
   Print (cmd_line list_cmd);
   Exec list_cmd (Returned 0);
   Print []].

Definition report_events (fixed_count : nat) : list event :=
  [Print [];
   if (0 <? fixed_count)%nat
   then Print [Lit "Fixed "; Lit (pretty fixed_count); Lit " vhost(s)."]
   else Print [Lit "All vhosts are OK."]].

(** The commands started in a trace, in order. *)
Definition commands (t : list event) : list (list string) :=
  omap (fun e => match e with Exec cmd _ => Some cmd | Print _ => None end) t.

(** The values a completed loop over the document [doc] has visited. *)
Definition entries_of (doc : value) : list value :=
  match doc with
  | VList items => items
  | VDict items => map VStr (dict_keys items [])
  | VStr s => map VStr (chars s)
  | _ => []
  end.

(** The number of entries that match the trigger condition. *)
Definition matched (entries : list value) : nat :=
  length (filter (fun e => is_undefined e = true) entries).

(** An entry the loop gets through when the call it makes succeeds: a
    dict with a name, which is a string when the entry matches (the
    name is then joined into a command line). *)
Definition listed (e : value) : Prop :=
  exists items name,
    e = VDict items /\ lookup_item "name" items = Some name
    /\ (is_undefined e = true -> exists s, name = VStr s).

(** The corrective calls for a listing: one for each entry that matches,
    in the order of the listing. *)
Definition corrective_calls (entries : list value) : list (list string) :=
  map (fun e => update_cmd (text_of (name_of e)))
      (filter (fun e => is_undefined e = true) entries).

Section Corrected.
Context {W : Type} `{System W}.

(** The world the commands [cmds] leave when they are started one after
    the other, each in the world the one before it left, and every one
    of them returns status 0; [None] when one of them does not. *)
Fixpoint corrected (cmds : list (list string)) (w : W) : option W :=
  match cmds with
  | [] => Some w
  | cmd :: rest =>
      match spawn cmd w with
      | (Returned r, w') =>
          if returncode r =? 0 then corrected rest w' else None
      | (Failed _, _) => None
      end
  end.
End Corrected.

(** *** The broker behind the two commands

    The broker is not part of the repository. The scan is stated and
    proved for every [System]; the broker below is the one the
    specification describes, for the properties that speak of the
    records the broker holds. *)

(** Modelled from the spec: the metadata of a virtual host, a record of
    named text fields of which [default_queue_type] is one (the broker's
    own data, absent from the repository). A field that is not set is
    absent from the map. *)
Abbreviation metadata := (gmap string string).

(** Modelled from the spec: the broker's table of virtual hosts, "a record
    keyed by virtual-host name". *)
Abbreviation broker := (gmap string metadata).

(** Modelled from the spec: the entry of one virtual host in the
    structured output of [list_vhosts name default_queue_type]; the field
    is left out when it is not set. *)
Definition listing_entry (kv : string * metadata) : value :=
  VDict (("name", VStr kv.1) ::
         match kv.2 !! DQT with
         | Some t => [(DQT, VStr t)]
         | None => []
         end).

Definition listing (b : broker) : list value :=
  map listing_entry (map_to_list b).

(** Modelled from the spec: [update_vhost_metadata name --default-queue-type t]
    overwrites that one field of the named virtual host ("persists until
    explicitly overwritten by another metadata-update call"), and fails
    for a name the broker does not hold. *)
Definition update_vhost_metadata (name t : string) (b : broker)
  : option broker :=
  meta ← b !! name;
  Some (<[name := <[DQT := t]> meta]> b).

(** Modelled from the spec: the two administrative commands of the scan,
    as the broker serves them. Any other command line is a usage error. *)
Definition rabbitmqctl (cmd : list string) (b : broker)
  : ran completed * broker :=
  match cmd with
  | [prog; verb; name; flag; t] =>
      if String.eqb prog "rabbitmqctl"
         && String.eqb verb "update_vhost_metadata"
         && String.eqb flag "--default-queue-type"
      then
        match update_vhost_metadata name t b with
        | Some b' => (Returned (Completed 0 None ""), b')
        | None => (Returned (Completed 69 None "no such vhost"), b)
        end
      else (Returned (Completed 64 None "usage"), b)
  | [prog; verb; c1; c2; flag; fmt] =>
      if String.eqb prog "rabbitmqctl"
         && String.eqb verb "list_vhosts"
         && String.eqb c1 "name"
         && String.eqb c2 DQT
         && String.eqb flag "--formatter"
         && String.eqb fmt "json"
      then (Returned (Completed 0 (Some (VList (listing b))) ""), b)
      else (Returned (Completed 64 None "usage"), b)
  | _ => (Returned (Completed 64 None "usage"), b)
  end.

#[export] Instance broker_system : System broker := {| spawn := rabbitmqctl |}.

(** What one scan leaves of a record: the field is overwritten where it
    held the text "undefined". *)
Definition repaired (meta : metadata) : metadata :=
  if decide (meta !! DQT = Some "undefined")
  then <[DQT := "classic"]> meta
  else meta.

(** A second system, for runs whose replies are fixed in advance: the
    world is the list of the replies still to come, one for each process
    started, whatever its command line. *)
Definition scripted : Type := list (ran completed).

Definition next_reply (cmd : list string) (w : scripted)
  : ran completed * scripted :=
  match w with
  | r :: rest => (r, rest)
  | [] => (Failed CannotStart, [])
  end.

Definition scripted_system : System scripted := {| spawn := next_reply |}.

(** Scenario D of the specification. *)
Definition scenario_D : value :=
  VList [VDict [("name", VStr "v1"); (DQT, VStr "undefined")];
         VDict [("name", VStr "v2"); (DQT, VStr "classic")]].

(** The broker of scenario D. *)
Definition example_broker : broker :=
  {[ "v1" := {[ DQT := "undefined" ]}; "v2" := {[ DQT := "classic" ]} ]}.

(** A world in which the listing returns scenario D and the corrective
    call succeeds. *)
Definition world_D : scripted :=
  [Returned (Completed 0 (Some scenario_D) ""); Returned (Completed 0 None "")].

Definition broken (name : string) : list (string * value) :=
  [("name", VStr name); (DQT, VStr "undefined")].

(** A world in which the listing returns three broken virtual hosts, the
    first corrective call succeeds and the second returns status 1. *)
Definition world_failing : scripted :=
  [Returned (Completed 0 (Some (VList [VDict (broken "a"); VDict (broken "b");
                                   VDict (broken "c")])) "");
   Returned (Completed 0 None "");
   Returned (Completed 1 None "")].

(** A world in which the listing command returns status 2. *)
Definition world_listing_fails : scripted :=
  [Returned (Completed 2 (Some scenario_D) "Error: unable to connect to node")].

(** A world in which the listing command prints something that is not
    JSON. *)
Definition world_not_json : scripted := [Returned (Completed 0 None "")].

(** A world in which the second entry of the listing has no name. *)
Definition world_nameless : scripted :=
  [Returned (Completed 0 (Some (VList [VDict (broken "a");
                                   VDict [(DQT, VStr "classic")];
                                   VDict (broken "c")])) "");
   Returned (Completed 0 None "")].

(** A listing with nothing to fix: a valid type, a field that is absent,
    and a name that is not a string. *)
Definition clean_entries : list value :=
  [VDict [("name", VStr "v2"); (DQT, VStr "classic")];
   VDict [("name", VStr "v3")];
   VDict [("name", VNum "7"); (DQT, VNone)]].

Definition world_clean : scripted :=
  [Returned (Completed 0 (Some (VList clean_entries)) "")].

(** A listing with an entry to fix between two that are not: a valid
    type, the text "undefined", and no field at all. *)
Definition mixed_entries : list value :=
  [VDict [("name", VStr "v2"); (DQT, VStr "classic")];
   VDict [("name", VStr "v1"); (DQT, VStr "undefined")];
   VDict [("name", VStr "v3")]].

(** A world in which the listing returns those entries and the one
    process started after it returns status 0. *)
Definition world_mixed : scripted :=
  [Returned (Completed 0 (Some (VList mixed_entries)) "");
   Returned (Completed 0 None "")].

End Workaround.

(** * The reproduction driver, [src/repro.py] *)

Module Repro.

Definition VHOST : string := "dqt_bug_repro".
Definition QUEUE : string := "test_queue".

(** ANSI colours *)
Definition CYAN : string := ESC +:+ "[0;36m".
Definition YELLOW : string := ESC +:+ "[0;33m".
Definition GREEN : string := ESC +:+ "[0;32m".
Definition RED : string := ESC +:+ "[0;31m".
Definition NC : string := ESC +:+ "[0m".

(** What [subprocess.run(..., capture_output=True, text=True)] returns. *)
Record completed : Type := Completed {
  returncode : Z;
  stdout : string;
  stderr : string
}.

(** How the [try] block of [declare_queue_pika] ends: the four client
    calls return, or one of them raises
    [pika.exceptions.ChannelClosedByBroker] with text [str(e)], or one of
    them raises another [Exception], of class name [type(e).__name__]. *)
Inductive declaration : Type :=
| Declared
| ChannelClosedByBroker (text : string)
| OtherException (type_name text : string).

(** The outside world of the driver: whether [import pika] succeeds, the
    operating system, and the broker at the other end of the client
    connection. [spawn cmd shell w] is the call
    [subprocess.run(cmd, shell=shell, capture_output=True, text=True)]
    made in world [w]: it gives the finished process, or the way the
    call itself fails, and the world it leaves. *)
Class System (W : Type) : Type := {
  pika_installed : W -> bool;
  spawn : command -> bool -> W -> ran completed * W;
  queue_declare : string -> string -> W -> declaration * W
}.

Inductive event : Type :=
| Print (line : string)
| Exec (cmd : command) (shell : bool) (status : ran Z)
| QueueDeclare (vhost queue : string) (expect_fail : bool) (outcome : declaration).

Definition quoted (s : string) : string := DQ +:+ s +:+ DQ.

(** The Erlang binary literal of a text. *)
Definition binary (s : string) : string := "<<" +:+ quoted s +:+ ">>".

(** A triple-quoted block of [main]: a line feed, the lines at an indent
    of eight, and the indent of the closing quotes. *)
Definition block (lines : list string) : string :=
  NL +:+ String.concat "" (map (fun l => "        " +:+ l +:+ NL) lines)
     +:+ "    ".

Definition stored_arguments_code : string :=
  block
    ["QName = rabbit_misc:r(" +:+ binary VHOST +:+ ", queue, "
       +:+ binary QUEUE +:+ "),";
     "{ok, Q} = rabbit_amqqueue:lookup(QName),";
     "Args = amqqueue:get_arguments(Q),";
     "XQT = rabbit_misc:table_lookup(Args, " +:+ binary "x-queue-type" +:+ "),";
     "io:format(" +:+ quoted "Stored x-queue-type: ~p~n" +:+ ", [XQT])."].

(** The three inspections of the metadata differ in their label only. *)
Definition metadata_code (label : string) : string :=
  block
    ["VHost = rabbit_vhost:lookup(" +:+ binary VHOST +:+ "),";
     "Meta = vhost:get_metadata(VHost),";
     "DQT = maps:get(default_queue_type, Meta, not_set),";
     "io:format(" +:+ quoted (label +:+ ": ~p~n") +:+ ", [DQT])."].

Definition merge_metadata_code : string :=
  "rabbit_db_vhost:merge_metadata(" +:+ binary VHOST
    +:+ ", #{default_queue_type => " +:+ binary "undefined" +:+ "}).".

Definition delete_vhost_cmd : list string :=
  ["rabbitmqctl"; "delete_vhost"; VHOST].

Definition declare_vhost_cmd : list string :=
  ["rabbitmqadmin"; "vhosts"; "declare"; "--name"; VHOST].

Definition declare_permissions_cmd : list string :=
  ["rabbitmqadmin"; "permissions"; "declare";
   "--vhost"; VHOST; "--user"; "guest";
   "--configure"; ".*"; "--write"; ".*"; "--read"; ".*"].

Definition update_metadata_cmd : list string :=
  ["rabbitmqctl"; "update_vhost_metadata"; VHOST;
   "--default-queue-type"; "classic"].

Definition eval_cmd (erlang_code : string) : list string :=
  ["rabbitmqctl"; "eval"; erlang_code].

Definition bar : string :=
  "============================================================".

Section Driver.
Context {W : Type} `{System W}.

Abbreviation script := (script W event).

Definition print (line : string) : script unit := emit (Print line).

Definition print_if_nonblank (text : string) : script unit :=
  if strip_nonempty text then print text else ret tt.

(** [subprocess.run(cmd, shell=shell, capture_output=True, text=True)] *)
Definition subprocess_run (cmd : command) (shell : bool) : script completed :=
  fun w =>
    match spawn cmd shell w with
    | (Returned r, w') => Outcome (Ok r) w' [Exec cmd shell (Returned (returncode r))]
    | (Failed e, w') => Outcome (Raise (raised e)) w' [Exec cmd shell (Failed e)]
    end.

Definition section (title : string) : script unit :=
  print "";;
  print (CYAN +:+ bar +:+ NC);;
  print (CYAN +:+ "  " +:+ title +:+ NC);;
  print (CYAN +:+ bar +:+ NC);;
  print "".

Definition run (cmd : command) (check shell : bool) : script completed :=
  let cmd_str :=
    match cmd with Argv args => join " " args | ShellLine line => line end in
  let shell :=
    match cmd with Argv _ => shell | ShellLine _ => true end in
  print ("  " +:+ YELLOW +:+ "$ " +:+ cmd_str +:+ NC);;
  result <- subprocess_run cmd shell;;
  print_if_nonblank (stdout result);;
  print_if_nonblank (stderr result);;
  if check && negb (returncode result =? 0)
  then raise (CalledProcessError (returncode result) cmd)
  else ret result.

Definition run_eval (erlang_code : string) : script completed :=
  let display_code := join " " (split erlang_code) in
  print ("  " +:+ YELLOW +:+ "$ rabbitmqctl eval '" +:+ display_code
              +:+ "'" +:+ NC);;
  result <- subprocess_run (Argv (eval_cmd erlang_code)) false;;
  print_if_nonblank (stdout result);;
  print_if_nonblank (stderr result);;
  ret result.

(** The [try] block up to [connection.close()]: connect to [vhost] as
    guest, open a channel, declare [queue] durable with no arguments,
    close. The trace keeps, with the declaration, the expectation it
    was made under. *)
Definition pika_session (vhost queue : string) (expect_fail : bool)
  : script declaration :=
  fun w =>
    let (d, w') := queue_declare vhost queue w in
    Outcome (Ok d) w' [QueueDeclare vhost queue expect_fail d].

Definition declare_queue_pika (vhost queue : string) (expect_fail : bool)
  : script bool :=
  print ("  " +:+ YELLOW +:+ "$ python: pika queue_declare('" +:+ queue
              +:+ "', durable=True)" +:+ NC);;
  d <- pika_session vhost queue expect_fail;;
  match d with
  | Declared =>
      if expect_fail then
        print ("  " +:+ RED
                    +:+ "error: Queue declaration succeeded (bug not reproduced)"
                    +:+ NC);;
        ret false
      else
        print ("  " +:+ GREEN +:+ "Queue declared successfully." +:+ NC);;
        ret true
  | ChannelClosedByBroker e =>
      if expect_fail && contains "PRECONDITION_FAILED" e then
        print ("  " +:+ GREEN +:+ "Success: got expected precondition_failed:"
                    +:+ NC);;
        print ("    " +:+ e);;
        ret true
      else
        print ("  " +:+ RED +:+ "error: " +:+ e +:+ NC);;
        ret false
  | OtherException type_name e =>
      print ("  " +:+ RED +:+ "error: " +:+ type_name +:+ ": " +:+ e +:+ NC);;
      ret false
  end.

Definition main : script unit :=
  section "CLEANUP";;
  run (Argv delete_vhost_cmd) false false;;

  section "STEP 1: Create test virtual host";;
  run (Argv declare_vhost_cmd) true false;;
  run (Argv declare_permissions_cmd) true false;;

  section "STEP 2: Create queue with Pika (no x-queue-type argument)";;
  print "Pika does NOT set x-queue-type by default for classic queues.";;
  print "This simulates legacy client behavior.";;
  print "";;
  declared <- declare_queue_pika VHOST QUEUE false;;
  (if negb declared then sys_exit 1 else ret tt);;

  section "STEP 3: Verify that the queue has no x-queue-type argument stored";;
  run_eval stored_arguments_code;;

  section "STEP 4: Check current virtual host default_queue_type metadata";;
  run_eval (metadata_code "Current default_queue_type");;

  section "STEP 5: Set virtual host default_queue_type to literal string 'undefined'";;
  print ("This simulates metadata that contains the literal string "
           +:+ binary "undefined" +:+ ".");;
  print "This can happen via definition import/export or API calls.";;
  print "";;
  run_eval merge_metadata_code;;

  section "STEP 6: Verify that default_queue_type is now the literal string";;
  run_eval (metadata_code "default_queue_type");;

  section "STEP 7: Redeclare queue with Pika (should fail)";;
  print "The server will inject x-queue-type from the virtual host's default_queue_type.";;
  print "Since it's set to 'undefined', the redeclaration will fail.";;
  print "";;
  declare_queue_pika VHOST QUEUE true;;

  section "STEP 8: Work around the problem by setting the virtual host's DQT to 'classic'";;
  run (Argv update_metadata_cmd) true false;;

  section "STEP 9: Verify that the metadata was changed as expected";;
  run_eval (metadata_code "Fixed default_queue_type");;

  section "STEP 10: Redeclare queue with Pika (should succeed)";;
  print "With DQT set to 'classic', the redeclaration now succeeds.";;
  print "";;
  declare_queue_pika VHOST QUEUE false;;

  section "CLEANUP";;
  print ("To clean up: " +:+ YELLOW +:+ "rabbitmqctl delete_vhost " +:+ VHOST
           +:+ NC).

(** The file run as a program: the guarded import of lines 21 to 25,
    then [main()]. *)
Definition repro : script unit :=
  fun w =>
    if pika_installed w then main w
    else (print "error: pika not installed. Run: pip install pika";;
          sys_exit 1) w.
End Driver.

(** *** The plan of [main]

    The external effects of [main], in program order, each with what
    decides whether the run goes on after it: a command, with the
    [check] it runs under, or a declaration of [queue] in [vhost], with
    the failure it expects and whether [main] exits when the verdict is
    [False]. *)

Inductive action : Type :=
| Run (cmd : list string) (check : bool)
| DeclareQueue (vhost queue : string) (expect_fail required : bool).

(** [run_eval(code)] never checks the return code. *)
Definition Eval_ (erlang_code : string) : action :=
  Run (eval_cmd erlang_code) false.

Definition plan : list action :=
  [Run delete_vhost_cmd false;
   Run declare_vhost_cmd true;
   Run declare_permissions_cmd true;
   DeclareQueue VHOST QUEUE false true;
   Eval_ stored_arguments_code;
   Eval_ (metadata_code "Current default_queue_type");
   Eval_ merge_metadata_code;
   Eval_ (metadata_code "default_queue_type");
   DeclareQueue VHOST QUEUE true false;
   Run update_metadata_cmd true;
   Eval_ (metadata_code "Fixed default_queue_type");
   DeclareQueue VHOST QUEUE false false].

(** The steps of the driver's contract: (a) the virtual host and its
    permissions, (b) the first declaration, (c) the inspection of the
    stored arguments, (d) the corruption of the metadata, (e) the
    redeclaration that is expected to fail, (f) the workaround, (g) the
    last redeclaration. *)
Definition contract : list action :=
  [Run declare_vhost_cmd true;
   Run declare_permissions_cmd true;
   DeclareQueue VHOST QUEUE false true;
   Eval_ stored_arguments_code;
   Eval_ merge_metadata_code;
   DeclareQueue VHOST QUEUE true false;
   Run update_metadata_cmd true;
   DeclareQueue VHOST QUEUE false false].

#[export] Instance command_eq_dec : EqDecision command.
Proof. solve_decision. Defined.

(** The value [declare_queue_pika] returns for an outcome of its [try]
    block. *)
Definition verdict (expect_fail : bool) (d : declaration) : bool :=
  match d with
  | Declared => negb expect_fail
  | ChannelClosedByBroker e => expect_fail && contains "PRECONDITION_FAILED" e
  | OtherException _ _ => false
  end.

(** The lines [declare_queue_pika] prints for an outcome of its [try]
    block. *)
Definition verdict_lines (expect_fail : bool) (d : declaration) : list string :=
  match d with
  | Declared =>
      if expect_fail
      then ["  " +:+ RED
                 +:+ "error: Queue declaration succeeded (bug not reproduced)"
                 +:+ NC]
      else ["  " +:+ GREEN +:+ "Queue declared successfully." +:+ NC]
  | ChannelClosedByBroker e =>
      if expect_fail && contains "PRECONDITION_FAILED" e
      then ["  " +:+ GREEN +:+ "Success: got expected precondition_failed:"
                 +:+ NC;
            "    " +:+ e]
      else ["  " +:+ RED +:+ "error: " +:+ e +:+ NC]
  | OtherException type_name e =>
      ["  " +:+ RED +:+ "error: " +:+ type_name +:+ ": " +:+ e +:+ NC]
  end.

(** The lines [run] and [run_eval] print for a captured stream. *)
Definition stream_lines (text : string) : list event :=
  if strip_nonempty text then [Print text] else [].

(** Whether event [e] is action [a] taking place, and then the exception
    that ends the run there, if any. *)
Definition judge (a : action) (e : event) : option (option exn) :=
  match a, e with
  | Run cmd check, Exec c false status =>
      if decide (c = Argv cmd) then
        Some match status with
             | Failed err => Some (raised err)
             | Returned rc =>
                 if check && negb (rc =? 0)
                 then Some (CalledProcessError rc (Argv cmd))
                 else None
             end
      else None
  | DeclareQueue vhost queue expect_fail required, QueueDeclare v q ef d =>
      if decide (v = vhost /\ q = queue /\ ef = expect_fail) then
        Some (if required && negb (verdict expect_fail d)
              then Some (SystemExit 1)
              else None)
      else None
  | _, _ => None
  end.

(** [replay p t]: the way a run of the actions [p] with the effects [t]
    ends ([Some None]: it reaches the end of [p]; [Some (Some x)]: it
    stops at its last effect with exception [x]), or [None] when [t] is
    not a run of [p]. *)
Fixpoint replay (p : list action) (t : list event) : option (option exn) :=
  match p, t with
  | [], [] => Some None
  | a :: p', e :: t' =>
      match judge a e with
      | Some None => replay p' t'
      | Some (Some x) =>
          match t' with
          | [] => Some (Some x)
          | _ :: _ => None
          end
      | None => None
      end
  | _, _ => None
  end.

Definition is_effect (e : event) : bool :=
  match e with
  | Print _ => false
  | _ => true
  end.

(** The external effects of a trace: everything but the printed lines. *)
Definition effects (t : list event) : list event := List.filter is_effect t.

(** The exception a result carries. *)
Definition ending {A : Type} (r : result A) : option exn :=
  match r with
  | Ok _ => None
  | Raise x => Some x
  end.

Section Plan.
Context {W : Type} `{System W}.

(** One action carried out in the world: the one call it stands for is
    made, and the run goes on or ends there. Nothing is printed. *)
Definition perform (a : action) : script W event unit :=
  fun w =>
    match a with
    | Run cmd check =>
        match spawn (Argv cmd) false w with
        | (Returned r, w') =>
            Outcome (if check && negb (returncode r =? 0)
                     then Raise (CalledProcessError (returncode r) (Argv cmd))
                     else Ok tt)
                    w' [Exec (Argv cmd) false (Returned (returncode r))]
        | (Failed e, w') =>
            Outcome (Raise (raised e)) w' [Exec (Argv cmd) false (Failed e)]
        end
    | DeclareQueue vhost queue expect_fail required =>
        let (d, w') := queue_declare vhost queue w in
        Outcome (if required && negb (verdict expect_fail d)
                 then Raise (SystemExit 1)
                 else Ok tt)
                w' [QueueDeclare vhost queue expect_fail d]
    end.

(** The actions [p] carried out one after the other, each in the world
    the one before it left, up to the first that ends the run. *)
Fixpoint execute (p : list action) : script W event unit :=
  match p with
  | [] => ret tt
  | a :: p' => perform a;; execute p'
  end.

(** [carries p m]: but for what it prints and the value it returns, [m]
    is the actions [p] carried out: the same effects in the same order,
    the same world left, the same exception if any. *)
Definition carries {A : Type} (p : list action) (m : script W event A)
  : Prop :=
  forall w,
    effects (trace (m w)) = trace (execute p w)
    /\ world (m w) = world (execute p w)
    /\ ending (res (m w)) = ending (res (execute p w)).
End Plan.

(** The commands [main] runs with [check] in force. *)
Definition checked_commands : list (list string) :=
  [declare_vhost_cmd; declare_permissions_cmd; update_metadata_cmd].

(** The commands started in a trace. *)
Definition started (t : list event) : list command :=
  omap (fun e => match e with Exec cmd _ _ => Some cmd | _ => None end) t.

(** The commands of a plan. *)
Definition plan_commands (p : list action) : list command :=
  omap (fun a => match a with Run cmd _ => Some (Argv cmd) | _ => None end) p.

(** *** A world with its replies fixed in advance

    The replies to the processes still to be started and the outcomes of
    the declarations still to be made, in order; once a list is used up,
    processes succeed silently and declarations succeed. *)
Record scripted : Type := Scripted {
  installed : bool;
  replies : list (ran completed);
  outcomes : list declaration
}.

Definition quiet (rc : Z) : ran completed := Returned (Completed rc "" "").

Definition scripted_spawn (cmd : command) (shell : bool) (w : scripted)
  : ran completed * scripted :=
  match replies w with
  | r :: rest => (r, Scripted (installed w) rest (outcomes w))
  | [] => (quiet 0, w)
  end.

Definition scripted_declare (vhost queue : string) (w : scripted)
  : declaration * scripted :=
  match outcomes w with
  | d :: rest => (d, Scripted (installed w) (replies w) rest)
  | [] => (Declared, w)
  end.

#[export] Instance scripted_system : System scripted := {|
  pika_installed := installed;
  spawn := scripted_spawn;
  queue_declare := scripted_declare
|}.

(** The reply of the broker to the redeclaration of step 7. *)
Definition precondition_failed : declaration :=
  ChannelClosedByBroker
    ("(406, " +:+ DQ
       +:+ "PRECONDITION_FAILED - inequivalent arg 'x-queue-type' for queue "
       +:+ "'test_queue' in vhost 'dqt_bug_repro': received 'undefined' but "
       +:+ "current is none" +:+ DQ +:+ ")").

(** The run the script is written for: every command succeeds, the first
    declaration succeeds, the second is refused, the third succeeds. *)
Definition world_reproduced : scripted :=
  Scripted true [] [Declared; precondition_failed; Declared].

(** The same run on a broker that has no virtual host to remove at the
    start, with a reply for each of the nine commands: the removal
    returns status 65, the others 0. *)
Definition world_fresh : scripted :=
  Scripted true
           [quiet 65; quiet 0; quiet 0; quiet 0; quiet 0; quiet 0; quiet 0;
            quiet 0; quiet 0]
           [Declared; precondition_failed; Declared].

(** A run in which the inspection of step 3 returns status 1. *)
Definition world_eval_fails : scripted :=
  Scripted true [quiet 0; quiet 0; quiet 0; quiet 1]
           [Declared; precondition_failed; Declared].

(** A run in which the workaround of step 8 returns status 2. *)
Definition world_update_fails : scripted :=
  Scripted true
           [quiet 0; quiet 0; quiet 0; quiet 0; quiet 0; quiet 0; quiet 0;
            quiet 2]
           [Declared; precondition_failed; Declared].

(** A run in which the redeclaration of step 7 succeeds and that of step
    10 is refused. *)
Definition world_unexpected : scripted :=
  Scripted true [] [Declared; Declared; precondition_failed].


(** A machine without the client library. *)
Definition world_no_pika : scripted := Scripted false [] [].

(** A machine on which [rabbitmqctl] cannot be started. *)
Definition world_cannot_start : scripted :=
  Scripted true [Failed CannotStart] [].

(** A machine on which [rabbitmqctl] writes bytes that are not text. *)
Definition world_cannot_decode : scripted :=
  Scripted true [Failed CannotDecode] [].

(** A world in which the next process writes to both streams, white
    space only to the first, and returns status 3. *)
Definition world_noisy : scripted :=
  Scripted true
           [Returned (Completed 3 (" " +:+ NL) ("Error: no such node" +:+ NL))]
           [].

(** The line [run] prints before it starts [cmd]. *)
Definition echo_line (cmd : command) : string :=
  "  " +:+ YELLOW +:+ "$ "
       +:+ match cmd with Argv args => join " " args | ShellLine line => line end
       +:+ NC.

End Repro.

(** * Properties *)

(** ** Sequencing *)

Section ScriptFacts.
Context {W E : Type}.
Implicit Types (w : W) (t : list E).

Lemma outcome_eta {A} (o : outcome W E A) :
  o = Outcome (res o) (world o) (trace o).
Proof. destruct o; reflexivity. Qed.

Lemma after_nil {A} (o : outcome W E A) : after [] o = o.
Proof. destruct o; reflexivity. Qed.

Lemma after_after {A} t1 t2 (o : outcome W E A) :
  after t1 (after t2 o) = after (t1 ++ t2) o.
Proof. unfold after. cbn. rewrite app_assoc. reflexivity. Qed.

Lemma bind_step {A B} (m : script W E A) (k : A -> script W E B) w a w' t :
  m w = Outcome (Ok a) w' t -> bind m k w = after t (k a w').
Proof. intros Hm. unfold bind. rewrite Hm. reflexivity. Qed.

Lemma bind_stop {A B} (m : script W E A) (k : A -> script W E B) w x w' t :
  m w = Outcome (Raise x) w' t -> bind m k w = Outcome (Raise x) w' t.
Proof. intros Hm. unfold bind. rewrite Hm. reflexivity. Qed.

Lemma bind_emit {B} (e : E) (k : unit -> script W E B) w :
  bind (emit e) k w = after [e] (k tt w).
Proof. reflexivity. Qed.

Lemma bind_ret {A B} (a : A) (k : A -> script W E B) w :
  bind (ret a) k w = k a w.
Proof. rewrite (bind_step _ _ w a w []) by reflexivity. apply after_nil. Qed.

Lemma bind_assoc {A B C} (m : script W E A) (k : A -> script W E B)
      (h : B -> script W E C) w :
  bind (bind m k) h w = bind m (fun a => bind (k a) h) w.
Proof.
  unfold bind. destruct (res (m w)) as [a|x]; cbn; [|reflexivity].
  destruct (res (k a (world (m w)))); cbn; [|reflexivity].
  rewrite app_assoc. reflexivity.
Qed.

Lemma bind_ext {A B} (m : script W E A) (k k' : A -> script W E B) w :
  (forall a w', k a w' = k' a w') -> bind m k w = bind m k' w.
Proof. intros Hk. unfold bind. destruct (res (m w)); rewrite ?Hk; reflexivity. Qed.

(** The two ways a sequence ends. *)
Lemma bind_cases {A B} (m : script W E A) (k : A -> script W E B) w :
  (exists a, res (m w) = Ok a
             /\ bind m k w = after (trace (m w)) (k a (world (m w))))
  \/ (exists x, res (m w) = Raise x
              /\ bind m k w = Outcome (Raise x) (world (m w)) (trace (m w))).
Proof.
  unfold bind. destruct (res (m w)) as [a|x]; [left; exists a|right; exists x]; done.
Qed.
End ScriptFacts.

(** ** The repair scan *)

Module ScanFacts.
Import Workaround.

Section AnySystem.
Context {W : Type} `{System W}.
Implicit Types (w : W) (vhost : value) (n : nat).

Lemma words_strings (l : list string) w :
  words (map VStr l) w = Outcome (Ok l) w [].
Proof.
  induction l as [|s l IH]; [reflexivity|].
  cbn [map words]. rewrite (bind_step _ _ _ _ _ _ IH). reflexivity.
Qed.

Lemma get_default items key (d : value) w :
  get (VDict items) key d w
  = Outcome (Ok (default d (lookup_item key items))) w [].
Proof. cbn. destruct (lookup_item key items); reflexivity. Qed.

Lemma subprocess_run_checked_eq cmd w :
  subprocess_run_checked cmd w =
    match spawn cmd w with
    | (Returned r, w') =>
        Outcome (if returncode r =? 0 then Ok r
                 else Raise (CalledProcessError (returncode r) (Argv cmd)))
                w' [Exec cmd (Returned (returncode r))]
    | (Failed e, w') => Outcome (Raise (raised e)) w' [Exec cmd (Failed e)]
    end.
Proof.
  unfold subprocess_run_checked, subprocess_run, bind.
  destruct (spawn cmd w) as [[r|e] w']; cbn; [|reflexivity].
  destruct (returncode r =? 0); reflexivity.
Qed.

(** One iteration on an entry whose name is a string. *)
Lemma visit_entry items s n w :
  lookup_item "name" items = Some (VStr s) ->
  visit (VDict items) n w =
    if is_undefined (VDict items) then
      let cmd := update_cmd s in
      let t := [Print (found_line (VDict items)); Print (cmd_line cmd)] in
      match spawn cmd w with
      | (Returned r, w') =>
          Outcome (if returncode r =? 0 then Ok (n + 1)%nat
                   else Raise (CalledProcessError (returncode r) (Argv cmd)))
                  w' (t ++ [Exec cmd (Returned (returncode r))])
      | (Failed e, w') => Outcome (Raise (raised e)) w' (t ++ [Exec cmd (Failed e)])
      end
    else Outcome (Ok n) w [Print (ok_line (VDict items))].
Proof.
  intros Hname.
  unfold visit, is_undefined, print, found_line, ok_line.
  cbn [getitem dqt_of name_of]. fold DQT. rewrite Hname, bind_ret.
  rewrite (bind_step _ _ _ _ _ _ (get_default _ _ _ _)), after_nil.
  cbn [default from_option id].
  destruct (eq_str _ "undefined"); [|reflexivity].
  rewrite bind_emit.
  rewrite (bind_step _ _ _ _ _ _ (words_strings (update_cmd s) w)), after_nil.
  rewrite bind_emit, after_after.
  unfold bind. rewrite subprocess_run_checked_eq.
  destruct (spawn _ w) as [[r|e] w']; cbn; [|reflexivity].
  destruct (returncode r =? 0); reflexivity.
Qed.

(** One iteration that runs to its end. *)
Lemma visit_ok vhost n w n' :
  res (visit vhost n w) = Ok n' ->
  trace (visit vhost n w) = entry_events vhost
  /\ n' = (n + if is_undefined vhost then 1 else 0)%nat.
Proof.
  destruct vhost as [| | | |items|items]; try (cbn; discriminate).
  destruct (lookup_item "name" items) as [name|] eqn:Hname; cycle 1.
  { unfold visit. cbn [getitem]. rewrite Hname. cbn. discriminate. }
  destruct name as [| | |s| |];
    try (unfold visit, print; cbn [getitem]; rewrite Hname, bind_ret;
         rewrite (bind_step _ _ _ _ _ _ (get_default _ _ _ _)), after_nil;
         unfold entry_events, is_undefined; cbn [dqt_of]; fold DQT;
         destruct (eq_str _ "undefined"); cbn;
         [discriminate | intros [= <-]; unfold ok_line; cbn [name_of dqt_of];
                         fold DQT; rewrite Hname; split; [reflexivity|lia]]).
  rewrite (visit_entry _ _ _ _ Hname). unfold entry_events.
  cbn [name_of]. rewrite Hname. cbn [default from_option id text_of].
  destruct (is_undefined (VDict items)).
  - destruct (spawn _ w) as [[r|e] w']; cbn; [|discriminate].
    destruct (returncode r =? 0) eqn:Hrc; [|discriminate].
    apply Z.eqb_eq in Hrc. rewrite Hrc.
    intros [= <-]. split; [reflexivity|lia].
  - cbn. intros [= <-]. split; [reflexivity|lia].
Qed.

Lemma matched_cons vhost (l : list value) :
  matched (vhost :: l) =
    ((if is_undefined vhost then 1 else 0) + matched l)%nat.
Proof.
  unfold matched. rewrite filter_cons.
  destruct (is_undefined vhost); case_decide; try done.
Qed.

(** A loop that runs to its end. *)
Lemma for_each_ok (l : list value) n w n' :
  res (for_each l n w) = Ok n' ->
  trace (for_each l n w) = flat_map entry_events l
  /\ n' = (n + matched l)%nat.
Proof.
  revert n w. induction l as [|vhost l IH]; intros n w.
  - cbn. intros [= <-]. split; [reflexivity|unfold matched; cbn; lia].
  - cbn [for_each flat_map]. rewrite matched_cons.
    destruct (bind_cases (visit vhost n) (fun m => for_each l m) w)
      as [(m & Hv & ->)|(x & Hv & ->)]; [|discriminate].
    cbn [after res trace]. intros Hrest.
    destruct (visit_ok _ _ _ _ Hv) as [-> ->].
    destruct (IH _ _ Hrest) as [-> ->]. split; [reflexivity|lia].
Qed.

(** The loop over a list is the loop over its front, then over its
    back. *)
Lemma for_each_app (l1 l2 : list value) n w :
  for_each (l1 ++ l2) n w = bind (for_each l1 n) (for_each l2) w.
Proof.
  revert n w. induction l1 as [|vhost l1 IH]; intros n w.
  - cbn [app for_each]. rewrite bind_ret. reflexivity.
  - cbn [app for_each]. rewrite bind_assoc. apply bind_ext. intros; apply IH.
Qed.

Lemma main_listed w r w1 :
  spawn list_cmd w = (Returned r, w1) ->
  returncode r = 0 ->
  main w =
    after [Print [Lit "Checking vhosts for default_queue_type set to literal 'undefined'..."];
           Print [];
           Print (cmd_line list_cmd);
           Exec list_cmd (Returned 0)]
          ((vhosts <- json_loads r;;
            print [];;
            entries <- iterate vhosts;;
            fixed_count <- for_each entries 0%nat;;
            report fixed_count) w1).
Proof.
  intros Hspawn Hrc.
  unfold main, print. rewrite !bind_emit, !after_after.
  erewrite bind_step; cycle 1.
  { unfold subprocess_run. rewrite Hspawn, Hrc. reflexivity. }
  rewrite after_after, Hrc. cbn [Z.eqb negb app]. rewrite bind_ret.
  reflexivity.
Qed.

Lemma loop_then_report entries w1 :
  (fixed_count <- for_each entries 0%nat;; report fixed_count) w1 =
    let o := for_each entries 0%nat w1 in
    match res o with
    | Ok n => Outcome (Ok tt) (world o) (trace o ++ report_events n)
    | Raise x => Outcome (Raise x) (world o) (trace o)
    end.
Proof.
  cbn zeta.
  destruct (bind_cases (for_each entries 0%nat) (fun n => report n) w1)
    as [(n & Hn & ->)|(x & Hx & ->)]; rewrite ?Hn, ?Hx; [|reflexivity].
  unfold report, report_events, print. rewrite bind_emit.
  destruct (0 <? n)%nat; reflexivity.
Qed.

(** [main], once the listing command has returned the document [doc]. *)
Lemma main_document w r w1 doc :
  spawn list_cmd w = (Returned r, w1) ->
  returncode r = 0 ->
  stdout r = Some doc ->
  main w =
    match doc with
    | VNone | VBool _ | VNum _ => Outcome (Raise TypeError) w1 header_events
    | _ =>
        let o := for_each (entries_of doc) 0%nat w1 in
        match res o with
        | Ok n => Outcome (Ok tt) (world o)
                          (header_events ++ trace o ++ report_events n)
        | Raise x => Outcome (Raise x) (world o) (header_events ++ trace o)
        end
    end.
Proof.
  intros Hspawn Hrc Hdoc.
  rewrite (main_listed _ _ _ Hspawn Hrc).
  unfold json_loads, print. rewrite Hdoc, bind_ret, bind_emit, after_after.
  destruct doc; cbn [iterate entries_of]; try reflexivity;
    rewrite bind_ret, loop_then_report; cbn zeta;
    destruct (res (for_each _ 0%nat w1)); reflexivity.
Qed.

Lemma commands_app (t1 t2 : list event) :
  commands (t1 ++ t2) = (commands t1 ++ commands t2)%list.
Proof. apply omap_app. Qed.

Lemma commands_entries (l : list value) :
  commands (flat_map entry_events l) =
    map (fun e => update_cmd (text_of (name_of e)))
        (filter (fun e => is_undefined e = true) l).
Proof.
  induction l as [|vhost l IH]; [reflexivity|].
  cbn [flat_map]. rewrite commands_app, IH, filter_cons.
  unfold entry_events.
  destruct (is_undefined vhost); case_decide; try done.
Qed.

Lemma commands_report n : commands (report_events n) = [].
Proof. unfold report_events. destruct (0 <? n)%nat; reflexivity. Qed.


Lemma is_undefined_lookup items :
  is_undefined (VDict items) = true
  <-> lookup_item DQT items = Some (VStr "undefined").
Proof.
  unfold is_undefined. cbn [dqt_of].
  destruct (lookup_item DQT items) as [v|]; cbn; [|done].
  destruct v as [| | |s| |]; cbn; try done.
  rewrite String.eqb_eq. split; congruence.
Qed.

(** One iteration on an entry that does not match: one line, whatever the
    name is. *)
Lemma visit_other items name n w :
  lookup_item "name" items = Some name ->
  is_undefined (VDict items) = false ->
  visit (VDict items) n w = Outcome (Ok n) w [Print (ok_line (VDict items))].
Proof.
  intros Hname Hother.
  unfold visit, print, ok_line. unfold is_undefined in Hother.
  cbn [getitem dqt_of name_of] in *. fold DQT in Hother |- *.
  rewrite Hname, bind_ret.
  rewrite (bind_step _ _ _ _ _ _ (get_default _ _ _ _)), after_nil.
  cbn [default from_option id] in *. by rewrite Hother.
Qed.

Lemma corrective_calls_cons vhost (l : list value) :
  corrective_calls (vhost :: l) =
    if is_undefined vhost
    then update_cmd (text_of (name_of vhost)) :: corrective_calls l
    else corrective_calls l.
Proof.
  unfold corrective_calls. rewrite filter_cons.
  destruct (is_undefined vhost); case_decide; done.
Qed.

Lemma corrective_calls_length (l : list value) :
  length (corrective_calls l) = matched l.
Proof. unfold corrective_calls, matched. apply length_map. Qed.

(** The loop over entries it can get through: it ends without an
    exception exactly when every corrective call returns status 0, and
    then the world is the one these calls leave. *)
Lemma for_each_listed (l : list value) n w :
  Forall listed l ->
  match corrected (corrective_calls l) w with
  | Some w' =>
      for_each l n w =
        Outcome (Ok (n + matched l)%nat) w' (flat_map entry_events l)
  | None => exists x, res (for_each l n w) = Raise x
  end.
Proof.
  intros Hl. revert n w.
  induction Hl as [|vhost l (items & name & -> & Hname & Hstr) _ IH];
    intros n w.
  - cbn. by rewrite Nat.add_0_r.
  - rewrite corrective_calls_cons, matched_cons. cbn [for_each flat_map].
    unfold entry_events at 1.
    destruct (is_undefined (VDict items)) eqn:Hu.
    + destruct (Hstr eq_refl) as [s ->].
      pose proof (visit_entry _ _ n w Hname) as Hv. rewrite Hu in Hv.
      cbn zeta in Hv. cbn [name_of]. rewrite Hname.
      cbn [default from_option id text_of corrected].
      destruct (spawn (update_cmd s) w) as [[r'|e] w''].
      * destruct (returncode r' =? 0) eqn:Hrc.
        -- apply Z.eqb_eq in Hrc. rewrite Hrc in Hv.
           rewrite (bind_step _ _ _ _ _ _ Hv). specialize (IH (n + 1)%nat w'').
           destruct (corrected (corrective_calls l) w'') as [w'|].
           ++ rewrite IH. unfold after. cbn [res world trace].
              f_equal. f_equal. lia.
           ++ destruct IH as [x Hx]. by exists x.
        -- rewrite (bind_stop _ _ _ _ _ _ Hv). by eexists.
      * rewrite (bind_stop _ _ _ _ _ _ Hv). by eexists.
    + rewrite (bind_step _ _ _ _ _ _ (visit_other _ _ n w Hname Hu)).
      specialize (IH n w).
      destruct (corrected (corrective_calls l) w) as [w'|].
      * rewrite IH. reflexivity.
      * destruct IH as [x Hx]. by exists x.
Qed.

(** C1. The corrective call is made for an entry exactly when its
    [default_queue_type] is the text "undefined". One iteration on such
    an entry starts one process, the corrective call for its name, and
    leaves the world that process leaves; one iteration on an entry with
    any other value, or without the field, prints one line, starts
    nothing and leaves the world and the count as they were. For a
    listing the loop can get through, the scan ends without an
    exception exactly when every corrective call returns status 0: the
    world is then the one the listing and these calls leave, what the
    scan did is fixed by the entries, one after the other, and the
    count it reports is the number of entries that matched, which is
    the number of corrective calls. *)
Theorem scan_calls_update_iff_undefined w r w1 entries :
  spawn list_cmd w = (Returned r, w1) ->
  returncode r = 0 ->
  stdout r = Some (VList entries) ->
  Forall listed entries ->
  (forall items name n w',
      lookup_item "name" items = Some (VStr name) ->
      lookup_item DQT items = Some (VStr "undefined") ->
      world (visit (VDict items) n w') = (spawn (update_cmd name) w').2
      /\ commands (trace (visit (VDict items) n w')) = [update_cmd name]
      /\ forall r',
           (spawn (update_cmd name) w').1 = Returned r' ->
           returncode r' = 0 ->
           res (visit (VDict items) n w') = Ok (n + 1)%nat)
  /\ (forall items name n w',
        lookup_item "name" items = Some name ->
        lookup_item DQT items <> Some (VStr "undefined") ->
        visit (VDict items) n w'
        = Outcome (Ok n) w' [Print (ok_line (VDict items))])
  /\ (forall items name n w',
        lookup_item "name" items = Some name ->
        lookup_item DQT items = None ->
        visit (VDict items) n w'
        = Outcome (Ok n) w' [Print (ok_line (VDict items))])
  /\ (forall items,
        is_undefined (VDict items) = true
        <-> lookup_item DQT items = Some (VStr "undefined"))
  /\ (forall w2,
        corrected (corrective_calls entries) w1 = Some w2 ->
        main w =
          Outcome (Ok tt) w2
                  (header_events ++ flat_map entry_events entries
                     ++ report_events (matched entries))
        /\ commands (trace (main w)) = list_cmd :: corrective_calls entries
        /\ res (for_each entries 0%nat w1) = Ok (matched entries))
  /\ (corrected (corrective_calls entries) w1 = None ->
      exists x, res (main w) = Raise x)
  /\ length (corrective_calls entries) = matched entries.
Proof.
  intros Hspawn Hrc Hdoc Hlisted.
  assert (Hother : forall items name n w',
            lookup_item "name" items = Some name ->
            lookup_item DQT items <> Some (VStr "undefined") ->
            visit (VDict items) n w'
            = Outcome (Ok n) w' [Print (ok_line (VDict items))]).
  { intros items name n w' Hname Hne. apply (visit_other _ name); [done|].
    destruct (is_undefined (VDict items)) eqn:Hu; [|done].
    by apply is_undefined_lookup in Hu. }
  pose proof (for_each_listed entries 0%nat w1 Hlisted) as Hloop.
  pose proof (main_document _ _ _ _ Hspawn Hrc Hdoc) as Hmain.
  cbn [entries_of] in Hmain. cbn zeta in Hmain.
  split_and!.
  - intros items name n w' Hname Hundef.
    apply is_undefined_lookup in Hundef.
    rewrite (visit_entry _ _ n w' Hname), Hundef. cbn zeta.
    destruct (spawn (update_cmd name) w') as [[r'|e] w'']; cbn [fst snd];
      (split_and!; [done|done|]).
    + intros ? [= <-] Hz. cbn [res]. by rewrite Hz.
    + done.
  - exact Hother.
  - intros items name n w' Hname Hnone. apply (Hother _ name); [done|].
    by rewrite Hnone.
  - apply is_undefined_lookup.
  - intros w2 Hw2. rewrite Hw2 in Hloop. rewrite Hloop in Hmain.
    cbn [res world trace] in Hmain. rewrite Hmain, Hloop.
    split_and!; [done| |done].
    cbn [trace].
    rewrite !commands_app, commands_entries, commands_report, app_nil_r.
    reflexivity.
  - intros Hnone. rewrite Hnone in Hloop. destruct Hloop as [x Hx].
    rewrite Hx in Hmain. exists x. by rewrite Hmain.
  - apply corrective_calls_length.
Qed.

(** C7. When the listing command returns the two entries of scenario D,
    the scan starts two processes, the listing and one corrective call,
    for v1; and when that call succeeds the loop ends with a count of
    one and the run with the line that reports one fix. *)
Theorem scenario_D_fixes_v1_only w r w1 :
  spawn list_cmd w = (Returned r, w1) ->
  returncode r = 0 ->
  stdout r = Some scenario_D ->
  commands (trace (main w)) = [list_cmd; update_cmd "v1"]
  /\ forall r' w2,
       spawn (update_cmd "v1") w1 = (Returned r', w2) ->
       returncode r' = 0 ->
       res (main w) = Ok tt
       /\ world (main w) = w2
       /\ res (for_each (entries_of scenario_D) 0%nat w1) = Ok 1%nat
       /\ last (trace (main w))
          = Some (Print [Lit "Fixed "; Lit "1"; Lit " vhost(s)."]).
Proof.
  intros Hspawn Hrc Hdoc.
  rewrite (main_document _ _ _ _ Hspawn Hrc Hdoc).
  unfold scenario_D. cbn [entries_of for_each]. cbn zeta.
  pose proof (fun n w' => visit_entry [("name", VStr "v1"); (DQT, VStr "undefined")]
                            "v1" n w' eq_refl) as Hv1.
  pose proof (fun n w' => visit_entry [("name", VStr "v2"); (DQT, VStr "classic")]
                            "v2" n w' eq_refl) as Hv2.
  change (is_undefined _) with true in Hv1.
  change (is_undefined _) with false in Hv2.
  cbn zeta in Hv1. unfold bind. rewrite Hv1.
  destruct (spawn (update_cmd "v1") w1) as [[r'|e] w2] eqn:Hup; cbn [res world trace].
  - destruct (returncode r' =? 0) eqn:Hrc'.
    + rewrite Hv2. cbn [res world trace]. split; [reflexivity|].
      intros ? ? [= <- <-] Hz. rewrite Hz. done.
    + split; [reflexivity|]. intros ? ? [= <- <-] Hz. rewrite Hz in Hrc'. done.
  - split; [reflexivity|]. intros ? ? [=].
Qed.

(** C9. When the corrective call for an entry returns a non-zero
    status, after the entries before it have been dealt with, the scan
    ends there with [CalledProcessError]: the world is the one that
    process left, the trace ends with that process, and neither
    depends on the entries that follow in the listing; no report line
    is printed. What the earlier corrective calls did stays done. *)
Theorem failed_update_aborts_scan w r w1 before items name after n1 r' w3 :
  spawn list_cmd w = (Returned r, w1) ->
  returncode r = 0 ->
  stdout r = Some (VList (before ++ VDict items :: after)) ->
  res (for_each before 0%nat w1) = Ok n1 ->
  lookup_item "name" items = Some (VStr name) ->
  is_undefined (VDict items) = true ->
  spawn (update_cmd name) (world (for_each before 0%nat w1)) = (Returned r', w3) ->
  returncode r' <> 0 ->
  main w =
    Outcome (Raise (CalledProcessError (returncode r') (Argv (update_cmd name))))
            w3
            (header_events ++ flat_map entry_events before
               ++ [Print (found_line (VDict items));
                   Print (cmd_line (update_cmd name));
                   Exec (update_cmd name) (Returned (returncode r'))]).
Proof.
  intros Hspawn Hrc Hdoc Hbefore Hname Hundef Hup Hfail.
  rewrite (main_document _ _ _ _ Hspawn Hrc Hdoc).
  cbn [entries_of]. cbn zeta. rewrite for_each_app.
  destruct (for_each_ok _ _ _ _ Hbefore) as [Ht _].
  rewrite (bind_step _ _ w1 n1 (world (for_each before 0%nat w1))
             (flat_map entry_events before)); cycle 1.
  { rewrite <- Ht, <- Hbefore. apply outcome_eta. }
  cbn [for_each].
  rewrite (bind_stop _ _ _
             (CalledProcessError (returncode r') (Argv (update_cmd name))) w3
             [Print (found_line (VDict items));
              Print (cmd_line (update_cmd name));
              Exec (update_cmd name) (Returned (returncode r'))]); [reflexivity|].
  rewrite (visit_entry _ _ _ _ Hname), Hundef. cbn zeta. rewrite Hup.
  apply Z.eqb_neq in Hfail. rewrite Hfail. reflexivity.
Qed.
End AnySystem.

(** *** The statements above at concrete worlds *)

Section Witnesses.
Local Existing Instance scripted_system.

(** Three entries, the second of which matches: one corrective call, for
    v1; the entry without the field gets a line and nothing else; both
    replies of the world have been used when the scan ends. *)
Lemma scan_calls_update_iff_undefined_witness :
  main world_mixed =
    Outcome (Ok tt) []
            (header_events
               ++ [Print (ok_line (VDict [("name", VStr "v2");
                                          (DQT, VStr "classic")]));
                   Print (found_line (VDict [("name", VStr "v1");
                                             (DQT, VStr "undefined")]));
                   Print (cmd_line (update_cmd "v1"));
                   Exec (update_cmd "v1") (Returned 0);
                   Print (ok_line (VDict [("name", VStr "v3")]))]
               ++ [Print []; Print [Lit "Fixed "; Lit "1"; Lit " vhost(s)."]])
  /\ commands (trace (main world_mixed)) = [list_cmd; update_cmd "v1"]
  /\ visit (VDict [("name", VStr "v3")]) 1%nat []
     = Outcome (Ok 1%nat) [] [Print (ok_line (VDict [("name", VStr "v3")]))].
Proof.
  assert (Hlisted : Forall listed mixed_entries).
  { unfold mixed_entries.
    repeat (apply Forall_cons_2;
            [eexists _, _; split; [reflexivity|split; [reflexivity|]];
             first [by intros _; eexists | discriminate]|]).
    apply Forall_nil_2. }
  assert (Hspawn : spawn list_cmd world_mixed
                   = (Returned (Completed 0 (Some (VList mixed_entries)) ""),
                      [Returned (Completed 0 None "")])) by reflexivity.
  destruct (scan_calls_update_iff_undefined world_mixed _ _ mixed_entries
              Hspawn eq_refl eq_refl Hlisted)
    as (_ & _ & Habsent & _ & Hrun & _).
  assert (Hcalls : corrected (corrective_calls mixed_entries)
                             [Returned (Completed 0 None "")] = Some [])
    by reflexivity.
  destruct (Hrun [] Hcalls) as (Hmain & Hcmds & _).
  split_and!.
  - exact Hmain.
  - exact Hcmds.
  - exact (Habsent [("name", VStr "v3")] (VStr "v3") 1%nat [] eq_refl eq_refl).
Defined.

Lemma scenario_D_fixes_v1_only_witness :
  spawn list_cmd world_D
  = (Returned (Completed 0 (Some scenario_D) ""), [Returned (Completed 0 None "")])
  /\ commands (trace (main world_D)) = [list_cmd; update_cmd "v1"]
  /\ forall r' w2,
       spawn (update_cmd "v1") [Returned (Completed 0 None "")] = (Returned r', w2) ->
       returncode r' = 0 ->
       res (main world_D) = Ok tt
       /\ world (main world_D) = w2
       /\ res (for_each (entries_of scenario_D) 0%nat
                        [Returned (Completed 0 None "")]) = Ok 1%nat
       /\ last (trace (main world_D))
          = Some (Print [Lit "Fixed "; Lit "1"; Lit " vhost(s)."]).
Proof.
  split; [reflexivity|].
  apply (scenario_D_fixes_v1_only world_D
           (Completed 0 (Some scenario_D) "") [Returned (Completed 0 None "")]);
    reflexivity.
Defined.

Lemma failed_update_aborts_scan_witness :
  returncode (Completed 1 None "") <> 0
  /\ main world_failing =
       Outcome (Raise (CalledProcessError 1 (Argv (update_cmd "b")))) []
               (header_events ++ flat_map entry_events [VDict (broken "a")]
                  ++ [Print (found_line (VDict (broken "b")));
                      Print (cmd_line (update_cmd "b"));
                      Exec (update_cmd "b") (Returned 1)]).
Proof.
  split; [discriminate|].
  apply (failed_update_aborts_scan world_failing
           (Completed 0 (Some (VList [VDict (broken "a"); VDict (broken "b");
                                      VDict (broken "c")])) "")
           [Returned (Completed 0 None ""); Returned (Completed 1 None "")]
           [VDict (broken "a")] (broken "b") "b" [VDict (broken "c")]
           1%nat (Completed 1 None "") []);
    try reflexivity.
  discriminate.
Defined.
End Witnesses.

(** *** The scan against the broker *)

Section Broker.
Implicit Types (b : broker) (meta : metadata) (k : string).

Lemma repaired_lookup meta : repaired meta !! DQT <> Some "undefined".
Proof.
  unfold repaired. case_decide as Hd; [|done].
  rewrite lookup_insert_eq. discriminate.
Qed.

Lemma repaired_valid meta :
  meta !! DQT <> Some "undefined" -> repaired meta = meta.
Proof. unfold repaired. intros Hv. case_decide; done. Qed.

Lemma is_undefined_listing_entry k meta :
  is_undefined (listing_entry (k, meta))
  = bool_decide (meta !! DQT = Some "undefined").
Proof.
  unfold listing_entry, is_undefined. cbn [fst snd].
  destruct (meta !! DQT) as [t|] eqn:Ht.
  - change (eq_str (VStr t) "undefined"
            = bool_decide (Some t = Some "undefined")).
    cbn [eq_str]. destruct (String.eqb_spec t "undefined") as [->|Hne].
    + by rewrite bool_decide_eq_true_2.
    + rewrite bool_decide_eq_false_2; [done|congruence].
  - reflexivity.
Qed.

(** One iteration on the entry of a record the broker still holds. *)
Lemma broker_visit k meta b n :
  b !! k = Some meta ->
  visit (listing_entry (k, meta)) n b =
    Outcome (Ok (n + if is_undefined (listing_entry (k, meta)) then 1 else 0)%nat)
            (<[k := repaired meta]> b)
            (entry_events (listing_entry (k, meta))).
Proof.
  intros Hk.
  assert (Hname : lookup_item "name"
            (("name", VStr k) :: match meta !! DQT with
                                 | Some t => [(DQT, VStr t)]
                                 | None => []
                                 end) = Some (VStr k)).
  { destruct (meta !! DQT); reflexivity. }
  pose proof (visit_entry _ _ n b Hname) as Hv.
  change (VDict _) with (listing_entry (k, meta)) in Hv. rewrite Hv. clear Hv.
  unfold entry_events.
  assert (Hn : name_of (listing_entry (k, meta)) = VStr k).
  { unfold listing_entry, name_of. cbn [fst snd]. by rewrite Hname. }
  rewrite Hn. cbn [text_of].
  rewrite is_undefined_listing_entry. unfold repaired.
  case_bool_decide as Hd.
  - rewrite decide_True by done. cbn zeta.
    change (spawn (update_cmd k) b) with (rabbitmqctl (update_cmd k) b).
    unfold rabbitmqctl, update_cmd, update_vhost_metadata.
    cbn [String.eqb Ascii.eqb Bool.eqb andb]. rewrite Hk. reflexivity.
  - rewrite decide_False by done. rewrite insert_id by done.
    f_equal. f_equal. lia.
Qed.

(** The loop over the entries of records the broker still holds. *)
Lemma broker_for_each (l : list (string * metadata)) b n :
  NoDup l.*1 ->
  (forall k meta, (k, meta) ∈ l -> b !! k = Some meta) ->
  for_each (map listing_entry l) n b =
    Outcome (Ok (n + matched (map listing_entry l))%nat)
            ((repaired <$> (list_to_map l : broker)) ∪ b)
            (flat_map entry_events (map listing_entry l)).
Proof.
  revert b n. induction l as [|[k meta] l IH]; intros b n Hnodup Hheld.
  - cbn [map for_each flat_map list_to_map foldr].
    rewrite fmap_empty, (left_id_L ∅ (∪)).
    replace (n + matched [])%nat with n by (unfold matched; cbn; lia).
    reflexivity.
  - cbn [map for_each flat_map list_to_map foldr].
    cbn [fmap list_fmap fst] in Hnodup. apply NoDup_cons in Hnodup as [Hk Hnodup].
    rewrite (bind_step _ _ _ _ _ _ (broker_visit k meta b n
                                      (Hheld k meta ltac:(left)))).
    rewrite IH; [|done|]; cycle 1.
    { intros k' meta' Hin. rewrite lookup_insert_ne; [apply Hheld; by right|].
      intros <-. apply Hk. apply list_elem_of_fmap. by exists (k, meta'). }
    unfold after. cbn [res world trace]. rewrite matched_cons.
    f_equal.
    + f_equal. lia.
    + cbn [fst snd]. rewrite fmap_insert.
      rewrite <- insert_union_l. rewrite <- insert_union_r; [done|].
      rewrite lookup_fmap. rewrite (not_elem_of_list_to_map_1 _ _ Hk). done.
Qed.

Lemma repaired_twice meta : repaired (repaired meta) = repaired meta.
Proof. apply repaired_valid, repaired_lookup. Qed.

(** The whole scan against the broker. *)
Lemma broker_main b :
  main b =
    Outcome (Ok tt) (repaired <$> b)
            (header_events ++ flat_map entry_events (listing b)
               ++ report_events (matched (listing b))).
Proof.
  rewrite (main_document b (Completed 0 (Some (VList (listing b))) "") b
             (VList (listing b))) by reflexivity.
  cbn [entries_of]. cbn zeta. unfold listing.
  rewrite broker_for_each; cycle 1.
  { apply NoDup_fst_map_to_list. }
  { intros k meta Hin. by apply elem_of_map_to_list. }
  cbn [res world trace]. f_equal.
  rewrite list_to_map_to_list. apply map_eq. intros k.
  rewrite lookup_union, !lookup_fmap. destruct (b !! k); done.
Qed.

Lemma matched_none (l : list value) :
  Forall (fun e => is_undefined e = false) l -> matched l = 0%nat.
Proof.
  induction 1 as [|e l He _ IH]; [reflexivity|].
  rewrite matched_cons, He, IH. reflexivity.
Qed.

Lemma filter_none (l : list value) :
  Forall (fun e => is_undefined e = false) l ->
  filter (fun e => is_undefined e = true) l = [].
Proof.
  induction 1 as [|e l He _ IH]; [reflexivity|].
  rewrite filter_cons, IH. case_decide; congruence.
Qed.

Lemma listing_repaired b :
  Forall (fun e => is_undefined e = false) (listing (repaired <$> b)).
Proof.
  unfold listing. apply Forall_forall. intros e Hin.
  apply list_elem_of_fmap in Hin as ([k meta] & -> & Hin).
  apply elem_of_map_to_list in Hin.
  apply lookup_fmap_Some in Hin as (meta0 & <- & _).
  rewrite is_undefined_listing_entry. apply bool_decide_eq_false_2.
  apply repaired_lookup.
Qed.

(** C4. After one scan of any table of records the run has ended
    without an exception, no record holds the text "undefined" in its
    [default_queue_type], a record that did not hold it is the record
    it was, and the table has the names it had. *)
Theorem scan_repairs_and_frames b :
  res (main b) = Ok tt
  /\ (forall k meta,
        world (main b) !! k = Some meta -> meta !! DQT <> Some "undefined")
  /\ (forall k meta,
        b !! k = Some meta -> meta !! DQT <> Some "undefined" ->
        world (main b) !! k = Some meta)
  /\ dom (world (main b)) = dom b.
Proof.
  rewrite broker_main. cbn [res world]. split_and!.
  - reflexivity.
  - intros k meta Hk. apply lookup_fmap_Some in Hk as (meta0 & <- & _).
    apply repaired_lookup.
  - intros k meta Hk Hvalid. rewrite lookup_fmap, Hk. cbn.
    by rewrite repaired_valid.
  - apply dom_fmap_L.
Qed.

(** C3. For any table of records, the scan run on what a first scan
    left finds nothing to fix: its loop returns a count of zero, it
    starts no process but the listing, it prints "All vhosts are OK."
    as its last line, and it leaves the table as it found it. *)
Theorem second_scan_fixes_nothing b :
  let w1 := world (main b) in
  res (main b) = Ok tt
  /\ res (main w1) = Ok tt
  /\ res (for_each (listing w1) 0%nat w1) = Ok 0%nat
  /\ commands (trace (main w1)) = [list_cmd]
  /\ last (trace (main w1)) = Some (Print [Lit "All vhosts are OK."])
  /\ world (main w1) = w1.
Proof.
  cbn zeta. rewrite (broker_main b). cbn [res world].
  pose proof (listing_repaired b) as Hnone.
  pose proof (matched_none _ Hnone) as Hzero.
  rewrite broker_main. cbn [res world trace]. split_and!.
  - reflexivity.
  - reflexivity.
  - unfold listing at 1. rewrite broker_for_each; cycle 1.
    { apply NoDup_fst_map_to_list. }
    { intros k meta Hin. by apply elem_of_map_to_list. }
    cbn [res]. fold (listing (repaired <$> b)). by rewrite Hzero.
  - rewrite !commands_app, commands_entries, commands_report, app_nil_r.
    rewrite (filter_none _ Hnone). reflexivity.
  - rewrite Hzero. unfold report_events. cbn [Nat.ltb Nat.leb].
    change [Print []; ?e] with ([Print []] ++ [e]).
    rewrite !app_assoc. apply last_snoc.
  - rewrite <- map_fmap_compose. apply map_fmap_ext. intros k meta _.
    apply repaired_twice.
Qed.

Lemma scan_repairs_and_frames_witness :
  world (main example_broker) !! "v2" = Some {[ DQT := "classic" ]}
  /\ forall meta,
       world (main example_broker) !! "v1" = Some meta ->
       meta !! DQT <> Some "undefined".
Proof.
  destruct (scan_repairs_and_frames example_broker) as (_ & Hfixed & Hframe & _).
  split.
  - apply Hframe; by vm_compute.
  - intros meta. apply Hfixed.
Defined.
End Broker.
End ScanFacts.

(** ** The reproduction driver *)

Module DriverFacts.
Import Repro.

(** *** Replaying a trace against a plan *)

Section Replay.
Implicit Types (p q : list action) (t : list event).

Lemma effects_app t1 t2 : effects (t1 ++ t2) = effects t1 ++ effects t2.
Proof. apply List.filter_app. Qed.

(** A trace that replays has, at each of its effects, the action of
    the plan at the same place; an effect that raises is the last. *)
Lemma replay_split p t0 e t1 o :
  replay p (t0 ++ e :: t1) = Some o ->
  exists a j,
    p !! length t0 = Some a /\ judge a e = Some j
    /\ match j with
       | Some x => t1 = [] /\ o = Some x
       | None => replay (drop (S (length t0)) p) t1 = Some o
       end.
Proof.
  revert t0. induction p as [|a p IH]; intros [|e0 t0]; cbn; try done.
  - destruct (judge a e) as [[x|]|] eqn:Hj; try done.
    + destruct t1; [|done]. intros Ho. simplify_eq.
      by exists a, (Some x).
    + intros Hr. by exists a, None.
  - destruct (judge a e0) as [[x|]|] eqn:Hj; try done.
    + destruct t0; done.
    + intros Hr. apply (IH _ Hr).
Qed.

(** A trace that replays to an exception ends with the effect that
    raised it. *)
Lemma replay_raised p t x :
  replay p t = Some (Some x) ->
  exists t0 e a,
    t = t0 ++ [e] /\ p !! length t0 = Some a
    /\ judge a e = Some (Some x).
Proof.
  revert t. induction p as [|a p IH]; intros [|e t]; cbn; try done.
  destruct (judge a e) as [[y|]|] eqn:Hj; try done.
  - destruct t; [|done]. intros Ho. simplify_eq. by exists [], e, a.
  - intros Hr. destruct (IH _ Hr) as (t0 & e' & a' & -> & Hlook & Hj').
    by exists (e :: t0), e', a'.
Qed.

Lemma replay_nil p o : replay p [] = Some o -> p = [] /\ o = None.
Proof. destruct p; cbn; [|done]. intros Ho. by simplify_eq. Qed.

(** A trace that replays to the end of the plan starts with an effect
    that the first action lets through. *)
Lemma replay_ok_cons a p t :
  replay (a :: p) t = Some None ->
  exists e t', t = e :: t' /\ judge a e = Some None /\ replay p t' = Some None.
Proof.
  destruct t as [|e t]; cbn; [done|].
  destruct (judge a e) as [[x|]|] eqn:Hj; try done.
  - by destruct t.
  - intros Hr. by exists e, t.
Qed.

Lemma replay_ok_nil t : replay [] t = Some None -> t = [].
Proof. by destruct t. Qed.

Lemma judge_started a e j :
  judge a e = Some j -> started [e] = plan_commands [a].
Proof.
  destruct a as [cmd check|vhost queue ef req], e as [line|c [|] status|v q ef' d];
    cbn; try done.
  case_decide as Hc; [|done]. by subst c.
Qed.

Lemma replay_started p t o :
  replay p t = Some o -> started t `prefix_of` plan_commands p.
Proof.
  revert t. induction p as [|a p IH]; intros [|e t] Hr;
    try done; try apply prefix_nil.
  cbn [replay] in Hr.
  change (started ([e] ++ t) `prefix_of` plan_commands ([a] ++ p)).
  unfold started, plan_commands in *. rewrite !omap_app.
  fold (started [e]). fold (plan_commands [a]).
  destruct (judge a e) as [[x|]|] eqn:Hj; try done.
  - destruct t; [|done]. rewrite (judge_started _ _ _ Hj).
    apply prefix_app, prefix_nil.
  - rewrite (judge_started _ _ _ Hj). by apply prefix_app, IH.
Qed.

Lemma started_effects t : started (effects t) = started t.
Proof.
  unfold started, effects. induction t as [|[line|c sh st|v q ef d] t IH];
    cbn; rewrite ?IH; done.
Qed.

(** What an action judges. *)
Lemma judge_exec a cmd shell status j :
  judge a (Exec cmd shell status) = Some j ->
  exists args check,
    a = Run args check /\ cmd = Argv args /\ shell = false
    /\ j = match status with
           | Failed err => Some (raised err)
           | Returned rc =>
               if check && negb (rc =? 0)
               then Some (CalledProcessError rc (Argv args))
               else None
           end.
Proof.
  destruct a as [args check|vhost queue ef req]; [|done]. cbn.
  destruct shell; [done|]. case_decide as Hc; [|done]. subst cmd.
  intros Hj. simplify_eq. by exists args, check.
Qed.

Lemma judge_declare a vhost queue ef d j :
  judge a (QueueDeclare vhost queue ef d) = Some j ->
  exists required,
    a = DeclareQueue vhost queue ef required
    /\ j = if required && negb (verdict ef d) then Some (SystemExit 1)
           else None.
Proof.
  destruct a as [cmd check|vhost' queue' ef' req]; cbn; [done|].
  case_decide as Hd; [|done]. destruct Hd as (-> & -> & ->).
  intros Hj. simplify_eq. by exists req.
Qed.


(** What an action lets through. *)
Lemma judge_run_ok cmd check e :
  judge (Run cmd check) e = Some None ->
  exists rc,
    e = Exec (Argv cmd) false (Returned rc) /\ (check = true -> rc = 0).
Proof.
  destruct e as [line|c [|] status|v q ef d]; cbn; try done.
  case_decide as Hc; [|done]. subst c. destruct status as [rc|err]; [|done].
  intros Hj. exists rc. split; [done|]. intros ->. cbn in Hj.
  destruct (rc =? 0) eqn:Hrc; [by apply Z.eqb_eq|done].
Qed.

Lemma judge_declare_ok vhost queue ef req e :
  judge (DeclareQueue vhost queue ef req) e = Some None ->
  exists d,
    e = QueueDeclare vhost queue ef d /\ (req = true -> verdict ef d = true).
Proof.
  destruct e as [line|c sh status|v q ef' d]; cbn; try done.
  case_decide as Hd; [|done]. destruct Hd as (-> & -> & ->).
  intros Hj. exists d. split; [done|]. intros ->. cbn in Hj.
  by destruct (verdict ef d).
Qed.
End Replay.

Ltac run_passes Hr rc Hrc :=
  let e := fresh "e" in
  let t := fresh "t" in
  let Hj := fresh "Hj" in
  apply replay_ok_cons in Hr as (e & t & -> & Hj & Hr);
  apply judge_run_ok in Hj as (rc & -> & Hrc).

Ltac declare_passes Hr d Hd :=
  let e := fresh "e" in
  let t := fresh "t" in
  let Hj := fresh "Hj" in
  apply replay_ok_cons in Hr as (e & t & -> & Hj & Hr);
  apply judge_declare_ok in Hj as (d & -> & Hd).

(** *** The functions of the driver *)

Section AnySystem.
Context {W : Type} `{System W}.
Implicit Types (w : W) (p q : list action).

Lemma print_if_nonblank_eq text w :
  print_if_nonblank text w = Outcome (Ok tt) w (stream_lines text).
Proof.
  unfold print_if_nonblank, stream_lines.
  destruct (strip_nonempty text); reflexivity.
Qed.

(** [run], for either kind of command. *)
Lemma run_spec cmd check shell w :
  run cmd check shell w =
    let sh := match cmd with Argv _ => shell | ShellLine _ => true end in
    match spawn cmd sh w with
    | (Returned r, w') =>
        Outcome (if check && negb (returncode r =? 0)
                 then Raise (CalledProcessError (returncode r) cmd)
                 else Ok r)
                w'
                ([Print (echo_line cmd); Exec cmd sh (Returned (returncode r))]
                   ++ stream_lines (stdout r) ++ stream_lines (stderr r))
    | (Failed e, w') =>
        Outcome (Raise (raised e)) w' [Print (echo_line cmd); Exec cmd sh (Failed e)]
    end.
Proof.
  unfold run, print, echo_line. rewrite bind_emit. unfold bind at 1, subprocess_run.
  cbn zeta.
  destruct (spawn cmd _ w) as [[r|e] w']; cbn [res world trace]; [|reflexivity].
  rewrite (bind_step _ _ _ _ _ _ (print_if_nonblank_eq _ _)).
  rewrite (bind_step _ _ _ _ _ _ (print_if_nonblank_eq _ _)).
  destruct (check && negb (returncode r =? 0)); cbn;
    rewrite ?app_nil_r; reflexivity.
Qed.

(** [run] on an argument vector. *)
Lemma run_eq cmd check shell w :
  run (Argv cmd) check shell w =
    let line := Print ("  " +:+ YELLOW +:+ "$ " +:+ join " " cmd +:+ NC) in
    match spawn (Argv cmd) shell w with
    | (Returned r, w') =>
        Outcome (if check && negb (returncode r =? 0)
                 then Raise (CalledProcessError (returncode r) (Argv cmd))
                 else Ok r)
                w'
                ([line; Exec (Argv cmd) shell (Returned (returncode r))]
                   ++ stream_lines (stdout r) ++ stream_lines (stderr r))
    | (Failed e, w') =>
        Outcome (Raise (raised e)) w' [line; Exec (Argv cmd) shell (Failed e)]
    end.
Proof. apply (run_spec (Argv cmd)). Qed.

Lemma run_eval_eq code w :
  run_eval code w =
    let line := Print ("  " +:+ YELLOW +:+ "$ rabbitmqctl eval '"
                            +:+ join " " (split code) +:+ "'" +:+ NC) in
    match spawn (Argv (eval_cmd code)) false w with
    | (Returned r, w') =>
        Outcome (Ok r) w'
                ([line; Exec (Argv (eval_cmd code)) false (Returned (returncode r))]
                   ++ stream_lines (stdout r) ++ stream_lines (stderr r))
    | (Failed e, w') =>
        Outcome (Raise (raised e)) w'
                [line; Exec (Argv (eval_cmd code)) false (Failed e)]
    end.
Proof.
  unfold run_eval, print. rewrite bind_emit. unfold bind at 1, subprocess_run.
  destruct (spawn (Argv (eval_cmd code)) false w) as [[r|e] w'];
    cbn [res world trace]; [|reflexivity].
  rewrite (bind_step _ _ _ _ _ _ (print_if_nonblank_eq _ _)).
  rewrite (bind_step _ _ _ _ _ _ (print_if_nonblank_eq _ _)).
  cbn. rewrite ?app_nil_r. reflexivity.
Qed.

Lemma declare_queue_pika_eq vhost queue expect_fail w :
  declare_queue_pika vhost queue expect_fail w =
    let d := (queue_declare vhost queue w).1 in
    Outcome (Ok (verdict expect_fail d))
            (queue_declare vhost queue w).2
            (Print ("  " +:+ YELLOW +:+ "$ python: pika queue_declare('"
                         +:+ queue +:+ "', durable=True)" +:+ NC)
               :: QueueDeclare vhost queue expect_fail d
               :: map Print (verdict_lines expect_fail d)).
Proof.
  unfold declare_queue_pika, print. rewrite bind_emit.
  unfold bind at 1, pika_session.
  destruct (queue_declare vhost queue w) as [d w']. cbn [res world trace fst snd].
  destruct d as [|e|ty e]; cbn [verdict verdict_lines].
  - destruct expect_fail; reflexivity.
  - destruct (expect_fail && contains "PRECONDITION_FAILED" e); reflexivity.
  - reflexivity.
Qed.

Lemma effects_stream_lines text : effects (stream_lines text) = [].
Proof. unfold stream_lines. destruct (strip_nonempty text); reflexivity. Qed.

Lemma effects_prints (lines : list string) : effects (map Print lines) = [].
Proof. induction lines; done. Qed.

Lemma ending_none (r : result unit) : ending r = None -> r = Ok tt.
Proof. by destruct r as [[]|]. Qed.

Lemma ending_some {A} (r : result A) x : ending r = Some x -> r = Raise x.
Proof. destruct r; cbn; congruence. Qed.


Lemma ending_unit (r r' : result unit) : ending r = ending r' -> r = r'.
Proof. destruct r as [[]|x], r' as [[]|y]; cbn; congruence. Qed.

(** *** The plan carried out *)

Lemma execute_one a w : execute [a] w = perform a w.
Proof.
  cbn [execute]. unfold bind, ret.
  destruct (perform a w) as [[[]|x] w' t]; cbn; by rewrite ?app_nil_r.
Qed.

Lemma execute_app p q w :
  execute (p ++ q) w = bind (execute p) (fun _ => execute q) w.
Proof.
  revert w. induction p as [|a p IH]; intros w.
  - cbn [app execute]. by rewrite bind_ret.
  - cbn [app execute]. rewrite bind_assoc. apply bind_ext. intros _ w'. apply IH.
Qed.

(** The one effect of an action is judged by that action as it ends. *)
Lemma perform_judge a w :
  exists e,
    trace (perform a w) = [e]
    /\ judge a e = Some (ending (res (perform a w))).
Proof.
  destruct a as [cmd check|vhost queue ef req]; unfold perform.
  - destruct (spawn (Argv cmd) false w) as [[r|e] w'];
      (eexists; split; [reflexivity|]); cbn; rewrite decide_True by done.
    + by destruct (check && negb (returncode r =? 0)).
    + done.
  - destruct (queue_declare vhost queue w) as [d w'].
    eexists; split; [reflexivity|]. cbn. rewrite decide_True by done.
    by destruct (req && negb (verdict ef d)).
Qed.

(** The effects of a plan carried out replay against the plan. *)
Lemma execute_replay p w :
  replay p (trace (execute p w)) = Some (ending (res (execute p w))).
Proof.
  revert w. induction p as [|a p IH]; intros w; [reflexivity|].
  cbn [execute]. destruct (perform_judge a w) as (e & Ht & Hj).
  destruct (bind_cases (perform a) (fun _ => execute p) w)
    as [(u & Hu & ->)|(x & Hx & ->)].
  - cbn [after res trace]. rewrite Ht. cbn [app replay].
    rewrite Hj, Hu. cbn [ending]. apply IH.
  - cbn [res trace]. rewrite Ht. cbn [replay]. rewrite Hj, Hx. reflexivity.
Qed.

Lemma carries_ext {A} p (m m' : script W event A) :
  (forall w, m' w = m w) -> carries p m -> carries p m'.
Proof. intros Heq Hm w. rewrite Heq. apply Hm. Qed.

Lemma carries_bind {A B} p q (m : script W event A) (k : A -> script W event B) :
  carries p m -> (forall a, carries q (k a)) ->
  carries (p ++ q) (bind m k).
Proof.
  intros Hm Hk w. destruct (Hm w) as (Ht & Hw & He).
  rewrite execute_app.
  destruct (bind_cases m k w) as [(a & Ha & ->)|(x & Hx & ->)].
  - rewrite Ha in He. cbn [ending] in He. symmetry in He.
    apply ending_none in He.
    rewrite (bind_step _ _ w tt (world (execute p w)) (trace (execute p w)));
      cycle 1.
    { rewrite <- He. apply outcome_eta. }
    destruct (Hk a (world (m w))) as (Ht' & Hw' & He').
    cbn [after res world trace]. rewrite effects_app, Ht, Ht', <- Hw. done.
  - rewrite Hx in He. cbn [ending] in He. symmetry in He.
    apply ending_some in He.
    rewrite (bind_stop _ _ w x (world (execute p w)) (trace (execute p w)));
      cycle 1.
    { rewrite <- He. apply outcome_eta. }
    cbn [res world trace]. done.
Qed.

Lemma carries_silent {A B} q (m : script W event A) (k : A -> script W event B) :
  carries [] m -> (forall a, carries q (k a)) -> carries q (bind m k).
Proof. apply (carries_bind [] q). Qed.

Lemma carries_then {A B} a q (m : script W event A) (k : A -> script W event B) :
  carries [a] m -> (forall x, carries q (k x)) ->
  carries (a :: q) (bind m k).
Proof. apply (carries_bind [a] q). Qed.

Lemma carries_print line : carries [] (print (W := W) line).
Proof. intros w. done. Qed.

Lemma carries_section title : carries [] (section (W := W) title).
Proof. intros w. done. Qed.

Lemma carries_run cmd check : carries [Run cmd check] (run (Argv cmd) check false).
Proof.
  intros w. rewrite execute_one, run_eq. cbn zeta. unfold perform.
  destruct (spawn (Argv cmd) false w) as [[r|e] w']; cbn [res world trace].
  - rewrite !effects_app, !effects_stream_lines, !app_nil_r.
    destruct (check && negb (returncode r =? 0)); done.
  - done.
Qed.

Lemma carries_run_eval code : carries [Eval_ code] (run_eval code).
Proof.
  intros w. rewrite execute_one, run_eval_eq. cbn zeta. unfold perform, Eval_.
  destruct (spawn (Argv (eval_cmd code)) false w) as [[r|e] w'];
    cbn [res world trace andb].
  - rewrite !effects_app, !effects_stream_lines, !app_nil_r. done.
  - done.
Qed.

Lemma carries_declare vhost queue expect_fail :
  carries [DeclareQueue vhost queue expect_fail false]
          (declare_queue_pika vhost queue expect_fail).
Proof.
  intros w. rewrite execute_one, declare_queue_pika_eq. cbn zeta.
  unfold perform. destruct (queue_declare vhost queue w) as [d w'].
  cbn [res world trace fst snd andb].
  change (effects (?a :: ?b :: ?l)) with (b :: effects l).
  by rewrite effects_prints.
Qed.

(** The first declaration, with the exit that follows it. *)
Lemma carries_required_declare vhost queue :
  carries [DeclareQueue vhost queue false true]
          (declared <- declare_queue_pika vhost queue false;;
           if negb declared then sys_exit 1 else ret tt).
Proof.
  intros w. rewrite execute_one.
  rewrite (bind_step _ _ _ _ _ _ (declare_queue_pika_eq vhost queue false w)).
  cbn zeta. unfold perform. destruct (queue_declare vhost queue w) as [d w'].
  cbn [after res world trace fst snd andb].
  rewrite effects_app.
  change (effects (?a :: ?b :: ?l)) with (b :: effects l).
  rewrite effects_prints.
  destruct d as [|e|ty e]; done.
Qed.

(** One statement of [main] against the plan. *)
Ltac carry :=
  lazymatch goal with
  | |- carries _ (bind (section _) _) =>
      apply carries_silent; [apply carries_section|intros ?]
  | |- carries _ (bind (print _) _) =>
      apply carries_silent; [apply carries_print|intros ?]
  | |- carries _ (bind (run _ _ _) _) =>
      apply carries_then; [apply carries_run|intros ?]
  | |- carries _ (bind (run_eval _) _) =>
      apply carries_then; [apply carries_run_eval|intros ?]
  | |- carries _ (bind (declare_queue_pika _ _ _) _) =>
      apply carries_then; [apply carries_declare|intros ?]
  end.

(** [main] carries out its plan. *)
Lemma main_carries : carries plan main.
Proof.
  unfold main, plan.
  repeat carry.
  eapply carries_ext; [intros w; symmetry; apply bind_assoc|].
  apply carries_then; [apply carries_required_declare|intros ?].
  repeat carry.
  apply carries_print.
Qed.

Lemma main_replay w :
  replay plan (effects (trace (main w))) = Some (ending (res (main w))).
Proof. destruct (main_carries w) as (-> & _ & ->). apply execute_replay. Qed.

(** Which commands of the plan run with [check] in force. *)
Lemma plan_checks cmd check :
  Run cmd check ∈ plan -> check = bool_decide (cmd ∈ checked_commands).
Proof.
  unfold plan, Eval_. rewrite !elem_of_cons, elem_of_nil.
  intros Hin. repeat destruct Hin as [Hin|Hin]; try done;
    injection Hin as -> ->; by vm_compute.
Qed.

Lemma plan_commands_NoDup : NoDup (plan_commands plan).
Proof. apply (bool_decide_unpack _). by vm_compute. Qed.

(** The declarations of the plan: the first is required, at place 3;
    the one that expects a failure is at place 8; the last is at place
    11. *)
Lemma plan_required n vhost queue expect_fail :
  plan !! n = Some (DeclareQueue vhost queue expect_fail true) ->
  n = 3%nat /\ expect_fail = false.
Proof.
  intros Hn. pose proof (lookup_lt_Some _ _ _ Hn) as Hlt. cbn in Hlt.
  do 12 (destruct n as [|n]; [cbn in Hn; by simplify_eq|]). lia.
Qed.


(** A run of [main] that reaches its end: its twelve effects. *)
Lemma complete_run w :
  res (main w) = Ok tt ->
  exists s0 s4 s5 s6 s7 de s10 dg,
    effects (trace (main w)) =
      [Exec (Argv delete_vhost_cmd) false (Returned s0);
       Exec (Argv declare_vhost_cmd) false (Returned 0);
       Exec (Argv declare_permissions_cmd) false (Returned 0);
       QueueDeclare VHOST QUEUE false Declared;
       Exec (Argv (eval_cmd stored_arguments_code)) false (Returned s4);
       Exec (Argv (eval_cmd (metadata_code "Current default_queue_type")))
            false (Returned s5);
       Exec (Argv (eval_cmd merge_metadata_code)) false (Returned s6);
       Exec (Argv (eval_cmd (metadata_code "default_queue_type")))
            false (Returned s7);
       QueueDeclare VHOST QUEUE true de;
       Exec (Argv update_metadata_cmd) false (Returned 0);
       Exec (Argv (eval_cmd (metadata_code "Fixed default_queue_type")))
            false (Returned s10);
       QueueDeclare VHOST QUEUE false dg].
Proof.
  intros Hok. pose proof (main_replay w) as Hr. rewrite Hok in Hr.
  cbn [ending] in Hr.
  set (t := effects (trace (main w))) in *. clearbody t.
  unfold plan, Eval_ in Hr.
  run_passes Hr s0 H0. run_passes Hr s1 H1. run_passes Hr s2 H2.
  declare_passes Hr d3 H3.
  run_passes Hr s4 H4. run_passes Hr s5 H5. run_passes Hr s6 H6.
  run_passes Hr s7 H7.
  declare_passes Hr de H8.
  run_passes Hr s9 H9. run_passes Hr s10 H10.
  declare_passes Hr dg H11.
  apply replay_ok_nil in Hr as ->.
  rewrite (H1 eq_refl), (H2 eq_refl), (H9 eq_refl).
  assert (d3 = Declared) as ->.
  { specialize (H3 eq_refl). by destruct d3. }
  by exists s0, s4, s5, s6, s7, de, s10, dg.
Qed.

(** C5. [main], but for what it prints, is its plan carried out: the
    twelve calls of the plan are made in the order of the plan, each in
    the world the one before it left, up to the first that ends the
    run; the world and the result of the run are those the plan leaves.
    A run that reaches its end has made all twelve, the three
    declarations being of the same queue in the same virtual host. The
    steps (a) to (g) of the contract are among the twelve, in the order
    of the contract: the others are the removal of the virtual host a
    previous run may have left, before (a), and the three inspections
    of the metadata that follow (c), (d) and (f). *)
Theorem driver_effects_in_order w :
  effects (trace (main w)) = trace (execute plan w)
  /\ world (main w) = world (execute plan w)
  /\ res (main w) = res (execute plan w)
  /\ (res (main w) = Ok tt ->
      exists s0 s4 s5 s6 s7 de s10 dg,
        effects (trace (main w)) =
          [Exec (Argv delete_vhost_cmd) false (Returned s0);
           Exec (Argv declare_vhost_cmd) false (Returned 0);
           Exec (Argv declare_permissions_cmd) false (Returned 0);
           QueueDeclare VHOST QUEUE false Declared;
           Exec (Argv (eval_cmd stored_arguments_code)) false (Returned s4);
           Exec (Argv (eval_cmd (metadata_code "Current default_queue_type")))
                false (Returned s5);
           Exec (Argv (eval_cmd merge_metadata_code)) false (Returned s6);
           Exec (Argv (eval_cmd (metadata_code "default_queue_type")))
                false (Returned s7);
           QueueDeclare VHOST QUEUE true de;
           Exec (Argv update_metadata_cmd) false (Returned 0);
           Exec (Argv (eval_cmd (metadata_code "Fixed default_queue_type")))
                false (Returned s10);
           QueueDeclare VHOST QUEUE false dg])
  /\ contract `sublist_of` plan.
Proof.
  destruct (main_carries w) as (Ht & Hw & He). split_and!.
  - exact Ht.
  - exact Hw.
  - by apply ending_unit.
  - apply complete_run.
  - unfold contract, plan.
    repeat first [apply sublist_skip | apply sublist_cons]. apply sublist_nil.
Qed.

(** C2, as amended. No command is started twice. A non-zero status of a
    command that [main] runs with [check] in force (the two of step 1
    and the workaround of step 8) ends the run at that command with
    [CalledProcessError], and the interpreter with status 1. A non-zero
    status of any other command (the removal of the virtual host at
    the start, the [rabbitmqctl eval] calls) does not: the run goes on
    to its next effect. *)
Theorem checked_failure_aborts_run w t0 cmd shell rc t1 :
  effects (trace (main w)) = t0 ++ Exec (Argv cmd) shell (Returned rc) :: t1 ->
  rc <> 0 ->
  NoDup (started (trace (main w)))
  /\ (cmd ∈ checked_commands ->
      t1 = []
      /\ res (main w) = Raise (CalledProcessError rc (Argv cmd))
      /\ exit_status (res (main w)) = 1)
  /\ (cmd ∉ checked_commands -> t1 <> []).
Proof.
  intros Heff Hrc. pose proof (main_replay w) as Hr.
  split.
  { rewrite <- started_effects.
    destruct (replay_started _ _ _ Hr) as [k Hk].
    pose proof plan_commands_NoDup as Hnd. rewrite Hk in Hnd.
    by apply NoDup_app in Hnd as [Hnd _]. }
  rewrite Heff in Hr.
  destruct (replay_split _ _ _ _ _ Hr) as (a & j & Hlook & Hj & Hrest).
  destruct a as [cmd' check|vhost queue ef req]; [|done]. cbn in Hj.
  destruct shell; [done|]. case_decide as Hc; [|done].
  injection Hc as ->. injection Hj as <-.
  apply Z.eqb_neq in Hrc. rewrite Hrc, andb_true_r in Hrest.
  pose proof (plan_checks _ _ (list_elem_of_lookup_2 _ _ _ Hlook)) as Hcheck.
  split.
  - intros Hin. rewrite bool_decide_eq_true_2 in Hcheck by done. subst check.
    destruct Hrest as [-> Ho]. split; [done|].
    apply ending_some in Ho. by rewrite Ho.
  - intros Hnin. rewrite bool_decide_eq_false_2 in Hcheck by done. subst check.
    intros ->. apply replay_nil in Hrest as [Hdrop _].
    apply (f_equal length) in Hdrop. rewrite length_drop in Hdrop.
    pose proof (lookup_lt_Some _ _ _ Hlook) as Hlt.
    assert (Hlen : length t0 = 11%nat) by (cbn in Hdrop, Hlt; lia).
    rewrite Hlen in Hlook. done.
Qed.


(** C6. [declare_queue_pika] never raises: it returns a verdict and
    prints it. With [expect_fail] the verdict is [True] exactly when
    the broker closed the channel with a text that contains
    "PRECONDITION_FAILED"; without it, exactly when the declaration
    went through. A declaration that went through against the
    expectation, or failed against it, gets [False] and one line in
    red that starts with "error: ". *)
Theorem declaration_mismatch_is_reported vhost queue expect_fail w :
  let d := (queue_declare vhost queue w).1 in
  let o := declare_queue_pika vhost queue expect_fail w in
  res o = Ok (verdict expect_fail d)
  /\ trace o =
       Print ("  " +:+ YELLOW +:+ "$ python: pika queue_declare('"
                   +:+ queue +:+ "', durable=True)" +:+ NC)
         :: QueueDeclare vhost queue expect_fail d
         :: map Print (verdict_lines expect_fail d)
  /\ (verdict true d = true <->
      exists text, d = ChannelClosedByBroker text
                   /\ contains "PRECONDITION_FAILED" text = true)
  /\ (verdict false d = true <-> d = Declared)
  /\ (d = Declared ->
      verdict_lines true d
      = ["  " +:+ RED
              +:+ "error: Queue declaration succeeded (bug not reproduced)"
              +:+ NC])
  /\ (forall text,
        d = ChannelClosedByBroker text ->
        verdict_lines false d = ["  " +:+ RED +:+ "error: " +:+ text +:+ NC])
  /\ (forall text,
        d = ChannelClosedByBroker text ->
        contains "PRECONDITION_FAILED" text = false ->
        verdict_lines true d = ["  " +:+ RED +:+ "error: " +:+ text +:+ NC])
  /\ (forall type_name text,
        d = OtherException type_name text ->
        verdict_lines expect_fail d
        = ["  " +:+ RED +:+ "error: " +:+ type_name +:+ ": " +:+ text
                +:+ NC]).
Proof.
  cbn zeta. rewrite declare_queue_pika_eq. cbn zeta. cbn [res trace].
  destruct ((queue_declare vhost queue w).1) as [|e|ty e]; split_and!;
    try done.
  - split; [done|]. by intros (text & ? & _).
  - cbn. split; [by exists e|]. by intros (text & [= <-] & ->).
  - by intros text [= <-].
  - intros text [= <-] Hc. cbn. by rewrite Hc.
  - split; [done|]. by intros (text & ? & _).
  - by intros ty' text [= <- <-].
Qed.

(** C8. Without the client library the program prints the instruction
    and exits with status 1: that line is the whole trace, so nothing
    outside has been called, and the world is as it was. *)
Theorem missing_pika_aborts w :
  pika_installed w = false ->
  repro w =
    Outcome (Raise (SystemExit 1)) w
            [Print "error: pika not installed. Run: pip install pika"]
  /\ exit_status (res (repro w)) = 1
  /\ effects (trace (repro w)) = [].
Proof.
  intros Hno. unfold repro. rewrite Hno. done.
Qed.
End AnySystem.

(** *** The statements above at concrete worlds *)

Section Witnesses.

(** The run on a broker without the virtual host: the removal fails and
    the run goes on; every reply and every outcome has been used when
    it ends. *)
Lemma driver_effects_in_order_witness :
  res (main world_fresh) = Ok tt
  /\ world (main world_fresh) = Scripted true [] []
  /\ effects (trace (main world_fresh)) =
       [Exec (Argv delete_vhost_cmd) false (Returned 65);
        Exec (Argv declare_vhost_cmd) false (Returned 0);
        Exec (Argv declare_permissions_cmd) false (Returned 0);
        QueueDeclare VHOST QUEUE false Declared;
        Exec (Argv (eval_cmd stored_arguments_code)) false (Returned 0);
        Exec (Argv (eval_cmd (metadata_code "Current default_queue_type")))
             false (Returned 0);
        Exec (Argv (eval_cmd merge_metadata_code)) false (Returned 0);
        Exec (Argv (eval_cmd (metadata_code "default_queue_type")))
             false (Returned 0);
        QueueDeclare VHOST QUEUE true precondition_failed;
        Exec (Argv update_metadata_cmd) false (Returned 0);
        Exec (Argv (eval_cmd (metadata_code "Fixed default_queue_type")))
             false (Returned 0);
        QueueDeclare VHOST QUEUE false Declared].
Proof.
  destruct (driver_effects_in_order world_fresh) as (Ht & Hw & Hr & _).
  rewrite Ht, Hw, Hr. by vm_compute.
Defined.

Lemma checked_failure_aborts_run_witness :
  effects (trace (main world_update_fails))
  = take 9 (effects (trace (main world_update_fails)))
      ++ Exec (Argv update_metadata_cmd) false (Returned 2) :: []
  /\ 2 <> 0
  /\ NoDup (started (trace (main world_update_fails)))
  /\ (update_metadata_cmd ∈ checked_commands ->
      [] = ([] : list event)
      /\ res (main world_update_fails)
         = Raise (CalledProcessError 2 (Argv update_metadata_cmd))
      /\ exit_status (res (main world_update_fails)) = 1)
  /\ (update_metadata_cmd ∉ checked_commands -> [] <> ([] : list event)).
Proof.
  split; [by vm_compute|]. split; [done|].
  apply (checked_failure_aborts_run world_update_fails
           (take 9 (effects (trace (main world_update_fails))))
           update_metadata_cmd false 2 []); [by vm_compute|done].
Defined.

(** The claim without its restriction to checked commands fails: in
    [world_eval_fails] the inspection of step 3 returns status 1 and
    seven more effects follow it. *)
Lemma any_failure_aborts_counterexample :
  ~ (forall (W : Type) (S : System W) (w : W) t0 cmd shell rc t1,
        effects (trace (main w)) = t0 ++ Exec cmd shell (Returned rc) :: t1 ->
        rc <> 0 ->
        t1 = [] /\ exists x, res (main w) = Raise x).
Proof.
  intros Hclaim.
  destruct (Hclaim scripted scripted_system world_eval_fails
              (take 4 (effects (trace (main world_eval_fails))))
              (Argv (eval_cmd stored_arguments_code)) false 1
              (drop 5 (effects (trace (main world_eval_fails)))))
    as [Hnil _].
  - by vm_compute.
  - done.
  - vm_compute in Hnil. discriminate Hnil.
Qed.


Lemma declaration_mismatch_is_reported_witness :
  res (declare_queue_pika VHOST QUEUE true world_unexpected) = Ok false
  /\ verdict_lines true Declared
     = ["  " +:+ RED
             +:+ "error: Queue declaration succeeded (bug not reproduced)"
             +:+ NC].
Proof.
  destruct (declaration_mismatch_is_reported VHOST QUEUE true world_unexpected)
    as (Hres & _ & _ & _ & Hline & _).
  split; [exact Hres|]. apply Hline. reflexivity.
Defined.

Lemma missing_pika_aborts_witness :
  pika_installed world_no_pika = false
  /\ repro world_no_pika =
       Outcome (Raise (SystemExit 1)) world_no_pika
               [Print "error: pika not installed. Run: pip install pika"]
  /\ exit_status (res (repro world_no_pika)) = 1
  /\ effects (trace (repro world_no_pika)) = [].
Proof.
  split; [reflexivity|]. apply (missing_pika_aborts world_no_pika). reflexivity.
Defined.
End Witnesses.
End DriverFacts.

(** ** Text *)

Module TextFacts.

Lemma append_assoc (a b c : string) : (a +:+ b) +:+ c = a +:+ (b +:+ c).
Proof.
  induction a as [|x a IH]; [reflexivity|].
  change (String x ((a +:+ b) +:+ c) = String x (a +:+ (b +:+ c))).
  f_equal. exact IH.
Qed.

Lemma append_empty_r (a : string) : a +:+ "" = a.
Proof.
  induction a as [|x a IH]; [reflexivity|].
  change (String x (a +:+ "") = String x a). f_equal. exact IH.
Qed.

Lemma prefix_spec (needle hay : string) :
  String.prefix needle hay = true <-> exists post, hay = needle +:+ post.
Proof.
  revert hay. induction needle as [|a needle IH]; intros hay.
  - destruct hay; cbn; split; eauto.
  - destruct hay as [|b hay]; cbn.
    + split; [done|]. by intros (post & ?).
    + destruct (ascii_dec a b) as [->|Hne].
      * rewrite IH. split; intros (post & Hpost); exists post.
        -- by rewrite Hpost.
        -- change (String b hay = String b (needle +:+ post)) in Hpost.
           congruence.
      * split; [done|]. intros (post & Hpost).
        change (String b hay = String a (needle +:+ post)) in Hpost.
        congruence.
Qed.

Lemma contains_prefix (needle hay : string) :
  String.prefix needle hay = true -> contains needle hay = true.
Proof.
  intros Hp. destruct hay; unfold contains; fold contains; by rewrite Hp.
Qed.

(** [contains] is the substring test. *)
Lemma contains_spec (needle hay : string) :
  contains needle hay = true
  <-> exists pre post, hay = pre +:+ needle +:+ post.
Proof.
  split.
  - induction hay as [|c hay IH].
    + cbn [contains]. rewrite orb_false_r. intros Hp.
      apply prefix_spec in Hp as [post ->].
      by exists "", post.
    + cbn [contains]. intros [Hp|Hc]%orb_true_iff.
      * apply prefix_spec in Hp as [post ->]. by exists "", post.
      * destruct (IH Hc) as (pre & post & ->). by exists (String c pre), post.
  - intros (pre & post & ->). induction pre as [|c pre IH].
    + apply contains_prefix, prefix_spec. by exists post.
    + change (contains needle (String c (pre +:+ needle +:+ post)) = true).
      unfold contains; fold contains. rewrite IH. apply orb_true_r.
Qed.

Lemma is_space2_space a : is_space2 a " " = false.
Proof. unfold is_space2. apply andb_false_r. Qed.

Lemma is_space3_space2 a c : is_space3 a " " c = false.
Proof.
  unfold is_space3. cbn zeta. change (nat_of_ascii " ") with 32%nat.
  cbn [Nat.eqb]. by rewrite !andb_false_r.
Qed.

Lemma is_space3_space3 a b : is_space3 a b " " = false.
Proof.
  unfold is_space3. cbn zeta. change (nat_of_ascii " ") with 32%nat.
  cbn [Nat.eqb Nat.leb orb andb]. by rewrite !andb_false_r.
Qed.

(** What follows a run does not matter once the run shows no white space. *)
Lemma space_width_extend (p r x : string) :
  p <> "" -> space_width (p +:+ r) = 0%nat ->
  space_width (p +:+ String " " x) = 0%nat /\ space_width p = 0%nat.
Proof.
  intros Hp. destruct p as [|a [|b [|c p]]]; [done|..].
  - change (space_width (String a r) = 0%nat ->
            space_width (String a (String " " x)) = 0%nat
            /\ space_width (String a "") = 0%nat).
    intros Hw.
    assert (Ha : is_space a = false).
    { destruct r as [|b [|c r]]; cbn in Hw; by destruct (is_space a). }
    destruct x as [|c x]; cbn; rewrite Ha, ?is_space2_space, ?is_space3_space2; done.
  - change (space_width (String a (String b r)) = 0%nat ->
            space_width (String a (String b (String " " x))) = 0%nat
            /\ space_width (String a (String b "")) = 0%nat).
    intros Hw.
    assert (Ha : is_space a = false /\ is_space2 a b = false).
    { destruct r as [|c r]; cbn in Hw;
        destruct (is_space a); try done; by destruct (is_space2 a b). }
    destruct Ha as [Ha Hb]. cbn. by rewrite Ha, Hb, is_space3_space3.
  - change (space_width (String a (String b (String c (p +:+ r)))) = 0%nat ->
            space_width (String a (String b (String c (p +:+ String " " x)))) = 0%nat
            /\ space_width (String a (String b (String c p))) = 0%nat).
    cbn. done.
Qed.

(** Two ways of cutting one text. *)
Lemma append_eq_append (a b c d : string) :
  a +:+ b = c +:+ d ->
  (exists m, c = a +:+ m /\ b = m +:+ d)
  \/ (exists m, a = c +:+ m /\ d = m +:+ b).
Proof.
  revert c. induction a as [|x a IH]; intros c Heq.
  - left. by exists c.
  - destruct c as [|y c].
    + right. by exists (String x a).
    + change (String x (a +:+ b) = String y (c +:+ d)) in Heq.
      injection Heq as -> Heq.
      destruct (IH _ Heq) as [(m & -> & ->)|(m & -> & ->)];
        [left|right]; by exists m.
Qed.

Lemma string_of_list_ascii_snoc (l : list ascii) (c : ascii) :
  string_of_list_ascii (l ++ [c]) = string_of_list_ascii l +:+ String c "".
Proof.
  induction l as [|x l IH]; [reflexivity|].
  change (String x (string_of_list_ascii (l ++ [c]))
          = String x (string_of_list_ascii l +:+ String c "")).
  f_equal. exact IH.
Qed.

Lemma string_of_list_ascii_nil (l : list ascii) :
  string_of_list_ascii l = "" -> l = [].
Proof. by destruct l. Qed.

Lemma run_free_nil (s : string) : run_free [] s.
Proof.
  intros pre post Heq Hpost. destruct pre, post; done.
Qed.

Lemma run_free_push (cur : list ascii) (c : ascii) (s : string) :
  run_free cur (String c s) -> space_width (String c s) = 0%nat ->
  run_free (c :: cur) s.
Proof.
  intros Hfree Hc pre post Heq Hpost.
  change (rev (c :: cur)) with (rev cur ++ [c]) in Heq.
  rewrite string_of_list_ascii_snoc in Heq.
  destruct (append_eq_append _ _ _ _ Heq) as [(m & -> & Hm)|(m & Hrun & ->)].
  - destruct m as [|y m].
    { change (String c "" = post) in Hm. subst post. exact Hc. }
    change (String c "" = String y (m +:+ post)) in Hm.
    injection Hm as <- Hm. by destruct m, post.
  - destruct m as [|y m].
    + change (space_width (String c "" +:+ s) = 0%nat). exact Hc.
    + rewrite append_assoc. apply (Hfree pre (String y m)); done.
Qed.

Lemma run_free_word (cur : list ascii) (s : string) :
  cur <> [] -> run_free cur s -> word (string_of_list_ascii (rev cur)).
Proof.
  intros Hcur Hfree. split.
  - intros Hnil. apply string_of_list_ascii_nil in Hnil.
    apply (f_equal (@rev ascii)) in Hnil. rewrite rev_involutive in Hnil. done.
  - intros pre post rest Heq Hpost.
    by apply (space_width_extend post s rest Hpost), (Hfree pre post).
Qed.

Lemma split_go_words (s : string) (cur : list ascii) (skip : nat) :
  (skip = 0%nat -> run_free cur s) -> (skip <> 0%nat -> cur = []) ->
  Forall word (split_go s cur skip).
Proof.
  revert cur skip. induction s as [|c s IH]; intros cur skip Hfree Hskip.
  - cbn [split_go]. destruct cur as [|x cur]; [constructor|].
    destruct skip as [|k]; [|by specialize (Hskip ltac:(done))].
    constructor; [|constructor].
    apply (run_free_word (x :: cur) ""); [done|by apply Hfree].
  - cbn [split_go]. destruct skip as [|k].
    + specialize (Hfree eq_refl).
      destruct (space_width (String c s)) as [|k] eqn:Hw.
      * apply IH; [|done]. intros _. by apply run_free_push.
      * assert (Hrest : Forall word (split_go s [] k)).
        { apply IH; [|done]. intros _. apply run_free_nil. }
        destruct cur as [|x cur]; [exact Hrest|].
        constructor; [|exact Hrest].
        by apply (run_free_word (x :: cur) (String c s)).
    + rewrite (Hskip ltac:(done)). apply IH; [|done]. intros _. apply run_free_nil.
Qed.

Lemma split_words (s : string) : Forall word (split s).
Proof. apply split_go_words; [intros _; apply run_free_nil|done]. Qed.

(** Reading a run that shows no white space before [rest]. *)
Lemma split_go_run (p rest : string) (cur : list ascii) :
  (forall pre post, p = pre +:+ post -> post <> "" ->
                    space_width (post +:+ rest) = 0%nat) ->
  split_go (p +:+ rest) cur 0
  = split_go rest (rev (list_ascii_of_string p) ++ cur) 0.
Proof.
  revert cur. induction p as [|c p IH]; intros cur Hp; [reflexivity|].
  change (split_go (String c (p +:+ rest)) cur 0
          = split_go rest ((rev (list_ascii_of_string p) ++ [c]) ++ cur) 0).
  assert (Hstep : split_go (String c (p +:+ rest)) cur 0
                  = split_go (p +:+ rest) (c :: cur) 0).
  { unfold split_go; fold split_go.
    change (String c (p +:+ rest)) with (String c p +:+ rest).
    by rewrite (Hp "" (String c p)). }
  rewrite Hstep, IH, <- app_assoc; [reflexivity|].
  intros pre post -> Hpost. by apply (Hp (String c pre) post).
Qed.

Lemma space_width_space (s : string) : space_width (String " " s) = 1%nat.
Proof. by destruct s as [|b [|c s]]. Qed.

Lemma split_go_end (cur : list ascii) :
  cur <> [] -> split_go "" cur 0 = [string_of_list_ascii (rev cur)].
Proof. by destruct cur. Qed.

Lemma split_go_space (s : string) (cur : list ascii) :
  cur <> [] ->
  split_go (String " " s) cur 0
  = string_of_list_ascii (rev cur) :: split_go s [] 0.
Proof.
  intros Hcur. unfold split_go; fold split_go.
  rewrite space_width_space. by destruct cur.
Qed.

Lemma split_join (ws : list string) :
  Forall word ws -> split (join " " ws) = ws.
Proof.
  unfold split. induction 1 as [|w ws [Hne Hw] Hws IH]; [reflexivity|].
  assert (Hflush : string_of_list_ascii
                     (rev (rev (list_ascii_of_string w) ++ [])) = w).
  { by rewrite app_nil_r, rev_involutive, string_of_list_ascii_of_string. }
  assert (Hcur : rev (list_ascii_of_string w) ++ [] <> []).
  { rewrite app_nil_r. destruct w as [|c w]; [done|].
    change (rev (list_ascii_of_string w) ++ [c] <> []).
    by destruct (rev (list_ascii_of_string w)). }
  destruct ws as [|w' ws].
  - change (join " " [w]) with w. rewrite <- (append_empty_r w) at 1.
    rewrite split_go_run, (split_go_end _ Hcur); [by rewrite Hflush|].
    intros pre post Heq Hpost. rewrite append_empty_r.
    by apply (space_width_extend post (String " " "") ""), (Hw pre).
  - change (join " " (w :: w' :: ws)) with (w +:+ " " +:+ join " " (w' :: ws)).
    change (" " +:+ join " " (w' :: ws))
      with (String " " (join " " (w' :: ws))).
    rewrite split_go_run, (split_go_space _ _ Hcur); [by rewrite Hflush, IH|].
    intros pre post Heq Hpost. by apply (Hw pre).
Qed.

(** In words joined by single spaces, white space starts only where one
    of those spaces is. *)
Lemma join_spaces (ws : list string) :
  Forall word ws ->
  forall pre post,
    join " " ws = pre +:+ post -> space_width post <> 0%nat ->
    exists post', post = String " " post'.
Proof.
  induction 1 as [|w ws [Hne Hw] Hws IH]; intros pre post Heq Hwidth.
  - destruct pre, post; done.
  - destruct ws as [|w' ws].
    + change (join " " [w]) with w in Heq.
      destruct post as [|c post]; [done|]. destruct Hwidth.
      by apply (space_width_extend (String c post) (String " " "") ""),
               (Hw pre).
    + change (join " " (w :: w' :: ws))
        with (w +:+ String " " (join " " (w' :: ws))) in Heq.
      destruct (append_eq_append _ _ _ _ Heq) as [(m & -> & Hm)|(m & Hw' & ->)].
      * destruct m as [|c m]; [by eexists|].
        change (String " " (join " " (w' :: ws)) = String c (m +:+ post)) in Hm.
        injection Hm as <- Hm. by apply (IH m post).
      * destruct m as [|c m]; [by eexists|]. destruct Hwidth.
        by apply (Hw pre (String c m)).
Qed.

End TextFacts.

(** ** More on the repair scan *)

Module ScanExtras.
Import Workaround ScanFacts.

Section AnySystem.
Context {W : Type} `{System W}.
Implicit Types (w : W) (vhost : value) (n : nat).

(** The start of [main], up to the listing command. *)
Lemma main_start w :
  main w =
    after [Print [Lit "Checking vhosts for default_queue_type set to literal 'undefined'..."];
           Print [];
           Print (cmd_line list_cmd)]
          ((result <- subprocess_run list_cmd;;
            (if negb (returncode result =? 0)
             then print [Lit RED; Lit "ERROR: "; Lit (stderr result); Lit NC];;
                  sys_exit 1
             else ret tt);;
            vhosts <- json_loads result;;
            print [];;
            entries <- iterate vhosts;;
            fixed_count <- for_each entries 0%nat;;
            report fixed_count) w).
Proof. unfold main, print. by rewrite !bind_emit, !after_after. Qed.

(** X1. When the listing command returns a non-zero status the scan prints
    its standard error and exits with status 1: the captured output is
    not decoded, no entry is looked at and no other process is started. *)
Theorem failed_listing_exits w r w1 :
  spawn list_cmd w = (Returned r, w1) ->
  returncode r <> 0 ->
  main w =
    Outcome (Raise (SystemExit 1)) w1
            [Print [Lit "Checking vhosts for default_queue_type set to literal 'undefined'..."];
             Print [];
             Print (cmd_line list_cmd);
             Exec list_cmd (Returned (returncode r));
             Print [Lit RED; Lit "ERROR: "; Lit (stderr r); Lit NC]]
  /\ exit_status (res (main w)) = 1.
Proof.
  intros Hspawn Hrc. apply Z.eqb_neq in Hrc.
  assert (Hmain : main w =
    Outcome (Raise (SystemExit 1)) w1
            [Print [Lit "Checking vhosts for default_queue_type set to literal 'undefined'..."];
             Print [];
             Print (cmd_line list_cmd);
             Exec list_cmd (Returned (returncode r));
             Print [Lit RED; Lit "ERROR: "; Lit (stderr r); Lit NC]]).
  { rewrite main_start.
    erewrite bind_step; cycle 1.
    { unfold subprocess_run. rewrite Hspawn. reflexivity. }
    rewrite Hrc. reflexivity. }
  by rewrite Hmain.
Qed.

(** X2. A listing command that succeeds with an output that is not JSON,
    or with a document that cannot be iterated (null, a boolean, a
    number), ends the scan with an exception, [JSONDecodeError] or
    [TypeError], after the listing and before any corrective call. *)
Theorem unreadable_listing_raises w r w1 :
  spawn list_cmd w = (Returned r, w1) ->
  returncode r = 0 ->
  (stdout r = None ->
   res (main w) = Raise JSONDecodeError /\ world (main w) = w1
   /\ commands (trace (main w)) = [list_cmd])
  /\ (forall doc,
        stdout r = Some doc ->
        doc = VNone \/ (exists b, doc = VBool b) \/ (exists lit, doc = VNum lit) ->
        res (main w) = Raise TypeError /\ world (main w) = w1
        /\ commands (trace (main w)) = [list_cmd]).
Proof.
  intros Hspawn Hrc. split.
  - intros Hout. rewrite (main_listed _ _ _ Hspawn Hrc).
    unfold json_loads. by rewrite Hout.
  - intros doc Hout Hdoc.
    rewrite (main_document _ _ _ _ Hspawn Hrc Hout).
    by destruct Hdoc as [->|[[b ->]|[lit ->]]].
Qed.

(** One iteration on an entry without a name. *)
Lemma visit_nameless items n w :
  lookup_item "name" items = None ->
  visit (VDict items) n w = Outcome (Raise (KeyError "name")) w [].
Proof. intros Hname. unfold visit. cbn [getitem]. by rewrite Hname. Qed.

(** X3. An entry without a ["name"] key ends the scan with [KeyError]
    when the loop reaches it, whatever its [default_queue_type]: nothing
    is printed for it, the entries after it are not looked at, and what
    was done for the entries before it stays done. *)
Theorem entry_without_name_raises w r w1 before items after n1 :
  spawn list_cmd w = (Returned r, w1) ->
  returncode r = 0 ->
  stdout r = Some (VList (before ++ VDict items :: after)) ->
  res (for_each before 0%nat w1) = Ok n1 ->
  lookup_item "name" items = None ->
  main w =
    Outcome (Raise (KeyError "name")) (world (for_each before 0%nat w1))
            (header_events ++ flat_map entry_events before).
Proof.
  intros Hspawn Hrc Hdoc Hbefore Hname.
  rewrite (main_document _ _ _ _ Hspawn Hrc Hdoc).
  cbn [entries_of]. cbn zeta. rewrite for_each_app.
  destruct (for_each_ok _ _ _ _ Hbefore) as [Ht _].
  rewrite (bind_step _ _ w1 n1 (world (for_each before 0%nat w1))
             (flat_map entry_events before)); cycle 1.
  { rewrite <- Ht, <- Hbefore. apply outcome_eta. }
  cbn [for_each].
  rewrite (bind_stop _ _ _ (KeyError "name")
             (world (for_each before 0%nat w1)) []);
    [|by apply visit_nameless].
  cbn. by rewrite app_nil_r.
Qed.

(** The loop over entries none of which matches. *)
Lemma for_each_clean (entries : list value) n w :
  Forall (fun e => exists items name,
              e = VDict items /\ lookup_item "name" items = Some name
              /\ is_undefined e = false) entries ->
  for_each entries n w =
    Outcome (Ok n) w (map (fun e => Print (ok_line e)) entries).
Proof.
  induction 1 as [|e entries (items & name & -> & Hname & Hother) _ IH];
    [reflexivity|].
  cbn [for_each map].
  rewrite (bind_step _ _ _ _ _ _ (visit_other _ _ _ _ Hname Hother)).
  by rewrite IH.
Qed.

(** X5. When every entry of the listing has a name (a string or not) and
    none holds the text "undefined", the empty listing included, the scan
    runs to its end, leaves the world as the listing command left it,
    prints one line for each entry and reports "All vhosts are OK.". *)
Theorem clean_listing_changes_nothing w r w1 entries :
  spawn list_cmd w = (Returned r, w1) ->
  returncode r = 0 ->
  stdout r = Some (VList entries) ->
  Forall (fun e => exists items name,
              e = VDict items /\ lookup_item "name" items = Some name
              /\ is_undefined e = false) entries ->
  main w =
    Outcome (Ok tt) w1
            (header_events ++ map (fun e => Print (ok_line e)) entries
               ++ [Print []; Print [Lit "All vhosts are OK."]]).
Proof.
  intros Hspawn Hrc Hdoc Hclean.
  rewrite (main_document _ _ _ _ Hspawn Hrc Hdoc).
  cbn [entries_of]. cbn zeta. by rewrite (for_each_clean _ _ _ Hclean).
Qed.

(** The commands one iteration starts. *)
Lemma visit_commands vhost n w :
  Forall (fun cmd => exists name, cmd = update_cmd name)
         (commands (trace (visit vhost n w))).
Proof.
  destruct vhost as [| | | |items|items]; try (cbn; constructor).
  destruct (lookup_item "name" items) as [name|] eqn:Hname; cycle 1.
  { rewrite (visit_nameless _ _ _ Hname). constructor. }
  destruct (is_undefined (VDict items)) eqn:Hundef; cycle 1.
  { rewrite (visit_other _ _ _ _ Hname Hundef). cbn. constructor. }
  destruct name as [| | |s| |];
    try (unfold visit, print; cbn [getitem]; rewrite Hname, bind_ret;
         rewrite (bind_step _ _ _ _ _ _ (get_default _ _ _ _)), after_nil;
         unfold is_undefined in Hundef; cbn [dqt_of] in Hundef;
         fold DQT in Hundef |- *; rewrite Hundef; cbn; constructor).
  rewrite (visit_entry _ _ _ _ Hname), Hundef. cbn zeta.
  destruct (spawn (update_cmd s) w) as [[r|e] w']; cbn;
    (constructor; [by exists s|constructor]).
Qed.

Lemma for_each_commands (l : list value) n w :
  Forall (fun cmd => exists name, cmd = update_cmd name)
         (commands (trace (for_each l n w))).
Proof.
  revert n w. induction l as [|vhost l IH]; intros n w; [constructor|].
  cbn [for_each].
  destruct (bind_cases (visit vhost n) (fun m => for_each l m) w)
    as [(m & Hv & ->)|(x & Hv & ->)]; cbn [after trace].
  - rewrite commands_app. apply Forall_app. split; [apply visit_commands|apply IH].
  - apply visit_commands.
Qed.

(** X4. Whatever the outside world does, and however the run ends, the
    scan starts the listing command first and after it nothing but
    corrective calls, each of which sets the type "classic" on one
    virtual host. *)
Theorem scan_starts_only_listing_and_updates w :
  exists rest,
    commands (trace (main w)) = list_cmd :: rest
    /\ Forall (fun cmd => exists name, cmd = update_cmd name) rest.
Proof.
  destruct (spawn list_cmd w) as [[r|e] w1] eqn:Hspawn; cycle 1.
  { exists []. split; [|constructor]. rewrite main_start.
    erewrite bind_stop; cycle 1.
    { unfold subprocess_run. rewrite Hspawn. reflexivity. }
    reflexivity. }
  destruct (returncode r =? 0) eqn:Hrc; cycle 1.
  { apply Z.eqb_neq in Hrc. exists []. split; [|constructor].
    by rewrite (proj1 (failed_listing_exits _ _ _ Hspawn Hrc)). }
  apply Z.eqb_eq in Hrc.
  destruct (stdout r) as [doc|] eqn:Hout; cycle 1.
  { exists []. split; [|constructor]. rewrite (main_listed _ _ _ Hspawn Hrc).
    unfold json_loads. by rewrite Hout. }
  rewrite (main_document _ _ _ _ Hspawn Hrc Hout).
  exists (commands (trace (for_each (entries_of doc) 0%nat w1))).
  split; [|apply for_each_commands].
  destruct doc; try reflexivity; cbn zeta;
    destruct (res (for_each _ 0%nat w1)); cbn [trace];
    rewrite ?commands_app, ?commands_report, ?app_nil_r; reflexivity.
Qed.
End AnySystem.

Section Witnesses.
Local Existing Instance scripted_system.

Lemma failed_listing_exits_witness :
  returncode (Completed 2 (Some scenario_D) "Error: unable to connect to node") <> 0
  /\ main world_listing_fails =
       Outcome (Raise (SystemExit 1)) []
               [Print [Lit "Checking vhosts for default_queue_type set to literal 'undefined'..."];
                Print [];
                Print (cmd_line list_cmd);
                Exec list_cmd (Returned 2);
                Print [Lit RED; Lit "ERROR: ";
                       Lit "Error: unable to connect to node"; Lit NC]]
  /\ exit_status (res (main world_listing_fails)) = 1.
Proof.
  split; [discriminate|].
  apply (failed_listing_exits world_listing_fails
           (Completed 2 (Some scenario_D) "Error: unable to connect to node") []);
    [reflexivity|discriminate].
Defined.

Lemma unreadable_listing_raises_witness :
  stdout (Completed 0 None "") = None
  /\ res (main world_not_json) = Raise JSONDecodeError
  /\ world (main world_not_json) = []
  /\ commands (trace (main world_not_json)) = [list_cmd].
Proof.
  split; [reflexivity|].
  exact (proj1 (unreadable_listing_raises world_not_json (Completed 0 None "") []
                  eq_refl eq_refl) eq_refl).
Defined.

Lemma entry_without_name_raises_witness :
  lookup_item "name" [(DQT, VStr "classic")] = None
  /\ main world_nameless =
       Outcome (Raise (KeyError "name")) []
               (header_events ++ flat_map entry_events [VDict (broken "a")]).
Proof.
  split; [reflexivity|].
  exact (entry_without_name_raises world_nameless
           (Completed 0 (Some (VList [VDict (broken "a");
                                      VDict [(DQT, VStr "classic")];
                                      VDict (broken "c")])) "")
           [Returned (Completed 0 None "")]
           [VDict (broken "a")] [(DQT, VStr "classic")] [VDict (broken "c")]
           1%nat eq_refl eq_refl eq_refl eq_refl eq_refl).
Defined.

Lemma clean_listing_changes_nothing_witness :
  main world_clean =
    Outcome (Ok tt) []
            (header_events ++ map (fun e => Print (ok_line e)) clean_entries
               ++ [Print []; Print [Lit "All vhosts are OK."]]).
Proof.
  assert (Hclean :
    Forall (fun e => exists items name,
                e = VDict items /\ lookup_item "name" items = Some name
                /\ is_undefined e = false) clean_entries).
  { unfold clean_entries.
    repeat (apply Forall_cons_2;
            [eexists _, _; split; [reflexivity|split; reflexivity]|]).
    apply Forall_nil_2. }
  exact (clean_listing_changes_nothing world_clean
           (Completed 0 (Some (VList clean_entries)) "") [] clean_entries
           eq_refl eq_refl eq_refl Hclean).
Defined.
End Witnesses.
End ScanExtras.

(** ** More on the reproduction driver *)

Module DriverExtras.
Import Repro DriverFacts.

Section AnySystem.
Context {W : Type} `{System W}.
Implicit Types (w : W).

(** X6. [run] starts one process, after printing the command. A command
    given as one string goes through the shell whatever [shell] argument
    was passed; a command given as a list gets the [shell] that was
    passed. *)
Theorem run_string_goes_through_shell cmd check shell w :
  exists status rest,
    trace (run cmd check shell w)
    = Print (echo_line cmd)
        :: Exec cmd (match cmd with Argv _ => shell | ShellLine _ => true end)
                status
        :: rest
    /\ effects rest = [].
Proof.
  rewrite run_spec. cbn zeta.
  destruct (spawn cmd _ w) as [[r|e] w'].
  - exists (Returned (returncode r)), (stream_lines (stdout r) ++ stream_lines (stderr r)).
    split; [reflexivity|]. by rewrite effects_app, !effects_stream_lines.
  - by exists (Failed e), [].
Qed.

(** X7. When the process [run] starts has returned, [run] prints what it
    wrote, a stream that holds white space only left out, and only then
    tests the return code. With [check], a status other than 0 raises
    [CalledProcessError] with that status and the command, and status
    0 returns the result; without [check] the result is returned
    whatever the status. *)
Theorem run_checks_after_printing cmd check shell w r w' :
  spawn cmd (match cmd with Argv _ => shell | ShellLine _ => true end) w
  = (Returned r, w') ->
  run cmd check shell w =
    Outcome (if check && negb (returncode r =? 0)
             then Raise (CalledProcessError (returncode r) cmd)
             else Ok r)
            w'
            ([Print (echo_line cmd);
              Exec cmd (match cmd with Argv _ => shell | ShellLine _ => true end)
                   (Returned (returncode r))]
               ++ (if strip_nonempty (stdout r) then [Print (stdout r)] else [])
               ++ (if strip_nonempty (stderr r) then [Print (stderr r)] else []))
  /\ (check = true -> returncode r <> 0 ->
      res (run cmd check shell w)
      = Raise (CalledProcessError (returncode r) cmd))
  /\ (check = true -> returncode r = 0 -> res (run cmd check shell w) = Ok r)
  /\ (check = false -> res (run cmd check shell w) = Ok r).
Proof.
  intros Hspawn. rewrite run_spec. cbn zeta. rewrite Hspawn.
  cbn [res]. split_and!.
  - reflexivity.
  - intros -> Hrc. apply Z.eqb_neq in Hrc. by rewrite Hrc.
  - intros -> Hrc. by rewrite Hrc.
  - by intros ->.
Qed.

(** X8. [run_eval] is [run] without [check] on the [rabbitmqctl eval]
    command: the same result, the same world, the same trace after the
    line that shows the command; so it returns the result whatever the
    status and never raises [CalledProcessError]. *)
Theorem run_eval_is_unchecked_run code w :
  res (run_eval code w) = res (run (Argv (eval_cmd code)) false false w)
  /\ world (run_eval code w) = world (run (Argv (eval_cmd code)) false false w)
  /\ tail (trace (run_eval code w))
     = tail (trace (run (Argv (eval_cmd code)) false false w))
  /\ forall rc c, res (run_eval code w) <> Raise (CalledProcessError rc c).
Proof.
  rewrite run_eval_eq, run_spec. cbn zeta.
  destruct (spawn (Argv (eval_cmd code)) false w) as [[r|[]] w']; done.
Qed.

(** X9. The code [run_eval] shows is the code with every run of white
    space, of any of the characters [str.split()] knows, turned into one
    space and none at either end: it has the same words, none of which
    is empty or has white space in it; it is left as it is by the same
    treatment; and wherever a white space character starts in it, that
    character is the space. *)
Theorem eval_display_is_normalised code w :
  let display := join " " (split code) in
  hd_error (trace (run_eval code w))
  = Some (Print ("  " +:+ YELLOW +:+ "$ rabbitmqctl eval '" +:+ display
                      +:+ "'" +:+ NC))
  /\ split display = split code
  /\ join " " (split display) = display
  /\ Forall word (split code)
  /\ forall pre post,
       display = pre +:+ post -> space_width post <> 0%nat ->
       exists post', post = String " " post'.
Proof.
  cbn zeta. pose proof (TextFacts.split_words code) as Hwords. split_and!.
  - rewrite run_eval_eq. cbn zeta.
    by destruct (spawn (Argv (eval_cmd code)) false w) as [[r|e] w'].
  - by apply TextFacts.split_join.
  - by rewrite TextFacts.split_join.
  - exact Hwords.
  - by apply TextFacts.join_spaces.
Qed.

(** X10. With [expect_fail], [declare_queue_pika] returns [True] exactly
    when the broker closed the channel and the text of the exception has
    "PRECONDITION_FAILED" somewhere in it. *)
Theorem expected_failure_needs_reason_text vhost queue w :
  res (declare_queue_pika vhost queue true w) = Ok true
  <-> exists pre post,
        (queue_declare vhost queue w).1
        = ChannelClosedByBroker (pre +:+ "PRECONDITION_FAILED" +:+ post).
Proof.
  rewrite declare_queue_pika_eq. cbn zeta. cbn [res].
  destruct ((queue_declare vhost queue w).1) as [|e|ty e]; cbn [verdict negb andb].
  - split; [done|]. by intros (pre & post & ?).
  - split.
    + intros [= Hc]. apply TextFacts.contains_spec in Hc as (pre & post & ->).
      by exists pre, post.
    + intros (pre & post & [= ->]). f_equal.
      apply TextFacts.contains_spec. by exists pre, post.
  - split; [done|]. by intros (pre & post & ?).
Qed.

(** An effect of a trace that replays is judged by an action of the
    plan. *)
Lemma replay_judged p t o e :
  replay p t = Some o -> e ∈ t ->
  exists a j, a ∈ p /\ judge a e = Some j.
Proof.
  intros Hr Hin. apply list_elem_of_split in Hin as (t0 & t1 & ->).
  destruct (replay_split _ _ _ _ _ Hr) as (a & j & Hlook & Hj & _).
  exists a, j. split; [|done]. by eapply list_elem_of_lookup_2.
Qed.

(** The declarations of the plan are all of the one queue. *)
Lemma plan_declares vhost queue ef req :
  DeclareQueue vhost queue ef req ∈ plan -> vhost = VHOST /\ queue = QUEUE.
Proof.
  unfold plan, Eval_. rewrite !elem_of_cons, elem_of_nil.
  intros Hin. repeat destruct Hin as [Hin|Hin]; by simplify_eq.
Qed.

(** X11. [main] ends in one of four ways, each with its cause. It
    reaches its end, its twelfth effect being the last declaration, and
    the interpreter exits with status 0. Or it raises [SystemExit(1)],
    its last effect being the first declaration, which was not a
    success. Or [subprocess.run] itself raised, for one of the commands
    of the plan: [OSError] when the program could not be started,
    [UnicodeDecodeError] when its output could not be decoded. Or one of
    the three checked commands returned a status other than 0, which
    raises [CalledProcessError] with that status and command. In the
    last three the interpreter exits with status 1. *)
Theorem main_endings w :
  (res (main w) = Ok tt /\ exit_status (res (main w)) = 0
   /\ exists t0 dg,
        effects (trace (main w)) = t0 ++ [QueueDeclare VHOST QUEUE false dg]
        /\ length t0 = 11%nat)
  \/ (res (main w) = Raise (SystemExit 1) /\ exit_status (res (main w)) = 1
      /\ exists t0 d,
           effects (trace (main w)) = t0 ++ [QueueDeclare VHOST QUEUE false d]
           /\ length t0 = 3%nat /\ d <> Declared)
  \/ (exists e cmd t0,
        res (main w) = Raise (raised e) /\ exit_status (res (main w)) = 1
        /\ Argv cmd ∈ plan_commands plan
        /\ effects (trace (main w)) = t0 ++ [Exec (Argv cmd) false (Failed e)])
  \/ (exists rc cmd t0,
        rc <> 0 /\ cmd ∈ checked_commands
        /\ res (main w) = Raise (CalledProcessError rc (Argv cmd))
        /\ exit_status (res (main w)) = 1
        /\ effects (trace (main w))
           = t0 ++ [Exec (Argv cmd) false (Returned rc)]).
Proof.
  destruct (res (main w)) as [[]|x] eqn:Hres.
  { left. split_and!; try done.
    destruct (complete_run _ Hres)
      as (s0 & s4 & s5 & s6 & s7 & de & s10 & dg & ->).
    eexists [_; _; _; _; _; _; _; _; _; _; _], dg. split; reflexivity. }
  right. pose proof (main_replay w) as Hr. rewrite Hres in Hr.
  cbn [ending] in Hr.
  destruct (replay_raised _ _ _ Hr) as (t0 & e & a & Heff & Hlook & Hj).
  pose proof (list_elem_of_lookup_2 _ _ _ Hlook) as Hin.
  destruct e as [line|cmd shell status|vhost queue ef d].
  - by destruct a.
  - destruct (judge_exec _ _ _ _ _ Hj) as (args & check & -> & -> & -> & Hx).
    destruct status as [rc|err].
    + right. right. destruct check; cbn [andb] in Hx; [|done].
      destruct (rc =? 0) eqn:Hrc; cbn [negb] in Hx; [done|].
      apply Z.eqb_neq in Hrc. injection Hx as ->.
      pose proof (plan_checks _ _ Hin) as Hcheck. symmetry in Hcheck.
      apply bool_decide_eq_true_1 in Hcheck.
      exists rc, args, t0. by split_and!.
    + right. left. injection Hx as ->. exists err, args, t0.
      split_and!; try done.
      * by destruct err.
      * unfold plan_commands. apply list_elem_of_omap.
        by exists (Run args check).
  - destruct (judge_declare _ _ _ _ _ _ Hj) as (req & -> & Hx).
    left. destruct (plan_declares _ _ _ _ Hin) as [-> ->].
    destruct req; cbn [andb] in Hx; [|done].
    destruct (plan_required _ _ _ _ Hlook) as [Hlen ->].
    destruct (verdict false d) eqn:Hv; cbn [negb] in Hx; [done|].
    injection Hx as ->. split_and!; try done.
    exists t0, d. split_and!; try done. by intros ->.
Qed.

(** X12. When [subprocess.run] itself raises, because the program cannot
    be started or because what it wrote cannot be decoded, the run ends
    there with that exception, at whatever step, the commands that run
    without [check] included. *)
Theorem launch_failure_aborts_run w t0 cmd shell e t1 :
  effects (trace (main w)) = t0 ++ Exec cmd shell (Failed e) :: t1 ->
  t1 = [] /\ res (main w) = Raise (raised e)
  /\ exit_status (res (main w)) = 1.
Proof.
  intros Heff. pose proof (main_replay w) as Hr. rewrite Heff in Hr.
  destruct (replay_split _ _ _ _ _ Hr) as (a & j & _ & Hj & Hrest).
  destruct (judge_exec _ _ _ _ _ Hj) as (args & check & _ & _ & _ & ->).
  destruct Hrest as [-> Ho]. apply ending_some in Ho. rewrite Ho.
  by destruct e.
Qed.

(** X13. [main] never goes through the shell and starts commands of its
    plan only, and every declaration it makes is for its own virtual host
    and queue. *)
Theorem driver_stays_in_its_vhost w e :
  e ∈ trace (main w) ->
  match e with
  | Print _ => True
  | Exec cmd shell _ => shell = false /\ cmd ∈ plan_commands plan
  | QueueDeclare vhost queue _ _ => vhost = VHOST /\ queue = QUEUE
  end.
Proof.
  intros Hin. destruct e as [line|cmd shell status|vhost queue ef d]; [done|..].
  - assert (Heff : Exec cmd shell status ∈ effects (trace (main w))).
    { apply list_elem_of_In, List.filter_In. split; [by apply list_elem_of_In|done]. }
    destruct (replay_judged _ _ _ _ (main_replay w) Heff) as (a & j & Ha & Hj).
    destruct (judge_exec _ _ _ _ _ Hj) as (args & check & -> & -> & -> & _).
    split; [done|]. unfold plan_commands. apply list_elem_of_omap.
    by exists (Run args check).
  - assert (Heff : QueueDeclare vhost queue ef d ∈ effects (trace (main w))).
    { apply list_elem_of_In, List.filter_In. split; [by apply list_elem_of_In|done]. }
    destruct (replay_judged _ _ _ _ (main_replay w) Heff) as (a & j & Ha & Hj).
    destruct (judge_declare _ _ _ _ _ _ Hj) as (req & -> & _).
    by apply plan_declares in Ha.
Qed.

(** X14. The removal of the virtual host is the first thing every run
    attempts, and the only time it is attempted: what the run creates is
    still there when it ends. *)
Theorem vhost_is_removed_only_at_start w :
  (exists status,
      effects (trace (main w)) !! 0%nat
      = Some (Exec (Argv delete_vhost_cmd) false status))
  /\ forall i shell status,
       effects (trace (main w)) !! i
       = Some (Exec (Argv delete_vhost_cmd) shell status) ->
       i = 0%nat.
Proof.
  pose proof (main_replay w) as Hr.
  set (t := effects (trace (main w))) in *. clearbody t. split.
  - destruct t as [|e t]; [done|].
    destruct (replay_split _ [] e t _ Hr) as (a & j & Hlook & Hj & _).
    cbn in Hlook. injection Hlook as <-.
    destruct e as [line|cmd shell status|vhost queue ef d]; try done.
    destruct (judge_exec _ _ _ _ _ Hj) as (args & check & [= <- <-] & -> & -> & _).
    by exists status.
  - intros i shell status Hi.
    apply list_elem_of_split_length in Hi as (t0 & t1 & -> & ->).
    destruct (replay_split _ _ _ _ _ Hr) as (a & j & Hlook & Hj & _).
    destruct (judge_exec _ _ _ _ _ Hj) as (args & check & -> & [= <-] & _).
    pose proof (lookup_lt_Some _ _ _ Hlook) as Hlt. cbn in Hlt.
    revert Hlook Hlt. generalize (length t0). intros n Hn Hlt.
    do 12 (destruct n as [|n]; [cbn in Hn; by simplify_eq|]). lia.
Qed.
End AnySystem.

Section Witnesses.

(** A checked command that returns status 3: its standard error is
    printed, its standard output, which is blank, is not, and then
    [CalledProcessError] is raised. *)
Lemma run_checks_after_printing_witness :
  run (Argv update_metadata_cmd) true false world_noisy =
    Outcome (Raise (CalledProcessError 3 (Argv update_metadata_cmd)))
            (Scripted true [] [])
            [Print (echo_line (Argv update_metadata_cmd));
             Exec (Argv update_metadata_cmd) false (Returned 3);
             Print ("Error: no such node" +:+ NL)]
  /\ res (run (Argv update_metadata_cmd) false false world_noisy)
     = Ok (Completed 3 (" " +:+ NL) ("Error: no such node" +:+ NL)).
Proof.
  split.
  - exact (proj1 (run_checks_after_printing (Argv update_metadata_cmd) true false
                    world_noisy
                    (Completed 3 (" " +:+ NL) ("Error: no such node" +:+ NL))
                    (Scripted true [] []) eq_refl)).
  - exact (proj2 (proj2 (proj2
             (run_checks_after_printing (Argv update_metadata_cmd) false false
                world_noisy
                (Completed 3 (" " +:+ NL) ("Error: no such node" +:+ NL))
                (Scripted true [] []) eq_refl))) eq_refl).
Defined.

Lemma launch_failure_aborts_run_witness :
  effects (trace (main world_cannot_start))
  = [] ++ Exec (Argv delete_vhost_cmd) false (Failed CannotStart) :: []
  /\ res (main world_cannot_start) = Raise OSError
  /\ exit_status (res (main world_cannot_start)) = 1
  /\ res (main world_cannot_decode) = Raise UnicodeDecodeError.
Proof.
  split; [by vm_compute|].
  destruct (launch_failure_aborts_run world_cannot_start []
              (Argv delete_vhost_cmd) false CannotStart [])
    as (_ & Hres & Hexit); [by vm_compute|].
  destruct (launch_failure_aborts_run world_cannot_decode []
              (Argv delete_vhost_cmd) false CannotDecode [])
    as (_ & Hres' & _); [by vm_compute|].
  split_and!; [exact Hres|exact Hexit|exact Hres'].
Defined.

Lemma driver_stays_in_its_vhost_witness :
  Exec (Argv delete_vhost_cmd) false (Returned 0) ∈ trace (main world_reproduced)
  /\ false = false /\ Argv delete_vhost_cmd ∈ plan_commands plan.
Proof.
  assert (Hin : Exec (Argv delete_vhost_cmd) false (Returned 0)
                  ∈ trace (main world_reproduced)).
  { apply (list_elem_of_lookup_2 _ 6%nat). by vm_compute. }
  split; [exact Hin|].
  exact (driver_stays_in_its_vhost world_reproduced _ Hin).
Defined.

Lemma vhost_is_removed_only_at_start_witness :
  effects (trace (main world_reproduced)) !! 0%nat
  = Some (Exec (Argv delete_vhost_cmd) false (Returned 0))
  /\ 0%nat = 0%nat.
Proof.
  assert (Hfirst : effects (trace (main world_reproduced)) !! 0%nat
                   = Some (Exec (Argv delete_vhost_cmd) false (Returned 0)))
    by (by vm_compute).
  split; [exact Hfirst|].
  exact (proj2 (vhost_is_removed_only_at_start world_reproduced) _ _ _ Hfirst).
Defined.
End Witnesses.
End DriverExtras.
